(** * Viral-kinetics datasets and bracket classifiers (NNModel.py)

    A shallow embedding of the data pipeline of [NNModel.py]: the
    pandas frames built by the three dataset classes, the four copies of
    [bracket], and the three copies of [translate].

    Numbers.  Python and numpy compute on binary64 values.  The embedding
    keeps the two features of that arithmetic the code's control flow
    depends on: a value is either a not-a-number marker or a finite
    number, and every comparison with a not-a-number is false.  Finite
    numbers are real numbers and their arithmetic is exact (no rounding,
    no overflow).  Where the rounding itself decides what [bracket]
    returns, the thresholds it computes, module [Binary64] transcribes
    the method on binary64 values. *)

From Stdlib Require Import Reals Lra Lia ZArith List String Bool Floats.
Import ListNotations.

Open Scope string_scope.
Open Scope Z_scope.

(** ** Numbers *)

Inductive num : Type :=
| NaN : num
| Fin : R -> num.

Declare Scope num_scope.
Delimit Scope num_scope with num.
Bind Scope num_scope with num.

Definition num_add (a b : num) : num :=
  match a, b with
  | Fin x, Fin y => Fin (x + y)
  | _, _ => NaN
  end.

(** Division; a zero divisor gives a non-finite value. *)
Definition num_div (a b : num) : num :=
  match a, b with
  | Fin x, Fin y => if Req_dec_T y 0 then NaN else Fin (x / y)
  | _, _ => NaN
  end.

(** [a > b]; false as soon as one side is not a number. *)
Definition num_gtb (a b : num) : bool :=
  match a, b with
  | Fin x, Fin y => if Rgt_dec x y then true else false
  | _, _ => false
  end.

(** [a < b]. *)
Definition num_ltb (a b : num) : bool :=
  match a, b with
  | Fin x, Fin y => if Rlt_dec x y then true else false
  | _, _ => false
  end.

Infix "+" := num_add : num_scope.
Infix "/" := num_div : num_scope.
Infix ">?" := num_gtb : num_scope.
Infix "<?" := num_ltb : num_scope.

Definition two : num := Fin 2.
Definition one : num := Fin 1.
Definition zero : num := Fin 0.

Definition is_fin (a : num) : Prop := exists r : R, a = Fin r.

(** [np.log] on a value.  The logarithm of a number that is not positive
    is not finite (numpy gives [-inf] or [nan]); the constructors take
    logarithms of clipped values only, so no such number reaches it. *)
Definition np_log (a : num) : num :=
  match a with
  | Fin x => if Rlt_dec 0 x then Fin (ln x) else NaN
  | NaN => NaN
  end.

(** [np.exp] on a value. *)
Definition np_exp (a : num) : num :=
  match a with
  | Fin x => Fin (exp x)
  | NaN => NaN
  end.

(** ** Exceptions, indices and tensors *)

(** The option monad carries Python's exceptions: [None] is a raised
    [KeyError], [IndexError] or [ValueError]. *)
Definition bind {A B : Type} (m : option A) (k : A -> option B) : option B :=
  match m with
  | Some a => k a
  | None => None
  end.

Notation "x <- m ;; k" := (bind m (fun x => k))
  (at level 61, m at next level, right associativity).

(** Python's index normalisation for a sequence of length [n]. *)
Definition py_index (n : nat) (idx : Z) : option nat :=
  if (0 <=? idx) && (idx <? Z.of_nat n) then Some (Z.to_nat idx)
  else if (- Z.of_nat n <=? idx) && (idx <? 0) then Some (Z.to_nat (idx + Z.of_nat n))
  else None.

(** [x[k]] on a one-dimensional tensor, array or list. *)
Definition tensor_get {A : Type} (x : list A) (k : Z) : option A :=
  i <- py_index (List.length x) k ;; nth_error x i.

(** A function that may raise, applied to every element in order. *)
Fixpoint map_raise {A B : Type} (f : A -> option B) (l : list A) : option (list B) :=
  match l with
  | [] => Some []
  | a :: l' => b <- f a ;; bs <- map_raise f l' ;; Some (b :: bs)
  end.

(** The sum of the entries of a tensor. *)
Definition tensor_sum (l : list num) : num := fold_left num_add l zero.

(** [torch.argmax] on a one-dimensional tensor: the index of the first
    maximal entry, a not-a-number counting as larger than any number; an
    empty tensor raises.  [beats v best] says that [v], met after [best],
    takes its place. *)
Definition beats (v best : num) : bool :=
  match best, v with
  | NaN, _ => false
  | Fin _, NaN => true
  | Fin b, Fin a => if Rgt_dec a b then true else false
  end.

Fixpoint argmax_from (best : num) (at_best next : nat) (l : list num) : nat :=
  match l with
  | [] => at_best
  | v :: l' =>
      if beats v best then argmax_from v next (S next) l'
      else argmax_from best at_best (S next) l'
  end.

Definition argmax (l : list num) : option nat :=
  match l with
  | [] => None
  | v :: l' => Some (argmax_from v 0%nat 1%nat l')
  end.

(** [nn.Softmax(dim=1)] on a two-dimensional tensor: every row is
    exponentiated and divided by the sum of its exponentials. *)
Definition softmax_row (row : list num) : list num :=
  let exps := map np_exp row in
  let total := tensor_sum exps in
  map (fun e => (e / total)%num) exps.

Definition softmax (batch : list (list num)) : list (list num) :=
  map softmax_row batch.

(** ** The classifier models *)

(** [ViralKineticsDNNClassifier]: [translate] is independent of the
    network weights; the methods that run the network take what it
    computes as a parameter. *)
Module ViralKineticsDNNClassifier.

Definition translate (prediction : Z) : option string :=
  match prediction with
  | 0 => Some "Low"
  | 1 => Some "Medium-Low"
  | 2 => Some "Medium-High"
  | 3 => Some "High"
  | _ => None
  end.

(** The methods that run the network take it as [stack], the function
    [self.stack] computes on a batch (one row of six features per
    record, one row of four scores out).  A result [None] is a raised
    exception; [Some None] is Python's [None], returned. *)
Section Network.

Variable stack : list (list num) -> list (list num).

(** [forward(self, x)]: [y.argmax()] without a dimension looks for the
    maximum in the flattened tensor. *)
Definition forward (x : list (list num)) : option (option string) :=
  let y := softmax (stack x) in
  prediction <- argmax (List.concat y) ;;
  Some (translate (Z.of_nat prediction)).

(** [training_step], the two labels it prints (lines 126 to 129): the
    string concatenation raises when [translate] returned [None]. *)
Definition training_step_labels (x y : list (list num)) : option (string * string) :=
  let result := stack x in
  let result := softmax result in
  result_0 <- nth_error result 0 ;;
  prediction <- argmax result_0 ;;
  result_label <- translate (Z.of_nat prediction) ;;
  y_0 <- nth_error y 0 ;;
  target <- argmax y_0 ;;
  target_label <- translate (Z.of_nat target) ;;
  Some ("Result: " ++ result_label, "Target: " ++ target_label).

(** [validation_step] up to the call of the metric (lines 134 to 138):
    the predictions and the targets handed to [self.accuracy]. *)
Definition validation_step_scored (x y : list (list num)) : option (list nat * list nat) :=
  let result := stack x in
  prediction <- map_raise argmax result ;;
  target <- map_raise argmax y ;;
  Some (prediction, target).

End Network.

End ViralKineticsDNNClassifier.

Module lazy_classifier.

Record t : Type := mk { value : Z; y_max : num; y_min : num }.

(** [__init__(self, value, y_max, y_min)] *)
Definition init (value : Z) (y_max y_min : num) : t := mk value y_max y_min.

Definition bracket (self : t) (y : num) : Z :=
  let y_mid := ((y_min self + y_max self) / two)%num in
  if (y >? y_mid)%num then
    if (y >? (y_mid + y_max self) / two)%num then 3 else 2
  else if (y >? (y_mid + y_min self) / two)%num then 1
  else 0.

Definition translate (prediction : Z) : option string :=
  match prediction with
  | 0 => Some "Low"
  | 1 => Some "Medium-Low"
  | 2 => Some "Medium-High"
  | 3 => Some "High"
  | _ => None
  end.

(** [forward(self, x)] on the features of one record.  A result [None] is
    a raised [IndexError]; the inner option is what [translate]
    returned. *)
Definition forward (self : t) (x : list num) : option (option string) :=
  v <- tensor_get x (value self) ;;
  let actual_value := np_exp v in
  Some (translate (bracket self actual_value)).

(** [test_step] up to the call of the metric (lines 164 to 172): the
    predictions and the targets handed to [self.accuracy]. *)
Definition test_step_scored (self : t) (x y : list (list num)) : option (list Z * list nat) :=
  let actual_value := map (map np_exp) x in
  prediction <- map_raise (fun row => tensor_get row (value self)) actual_value ;;
  let prediction := map (bracket self) prediction in
  target <- map_raise argmax y ;;
  Some (prediction, target).

End lazy_classifier.

Module lazy_classifier2.

Record t : Type := mk { value : Z; y_max : num; y_min : num }.

Definition init (value : Z) (y_max y_min : num) : t := mk value y_max y_min.

Definition bracket (self : t) (y : num) : Z :=
  let y_mid := ((y_min self + y_max self) / two)%num in
  if (y >? y_mid)%num then
    if (y >? (y_mid + y_max self) / two)%num then 3 else 2
  else if (y >? (y_mid + y_min self) / two)%num then 1
  else 0.

Definition translate (prediction : Z) : option string :=
  match prediction with
  | 0 => Some "Medium-Low"
  | 1 => Some "Medium-High"
  | 2 => Some "High"
  | 3 => Some "High"
  | _ => None
  end.

(** [forward(self, x)] on the features of one record.  A result [None] is
    a raised [IndexError]; the inner option is what [translate]
    returned. *)
Definition forward (self : t) (x : list num) : option (option string) :=
  v <- tensor_get x (value self) ;;
  let actual_value := np_exp v in
  Some (translate (bracket self actual_value)).

(** [test_step] up to the call of the metric (lines 214 to 222): the
    predictions and the targets handed to [self.accuracy]. *)
Definition test_step_scored (self : t) (x y : list (list num)) : option (list Z * list nat) :=
  let actual_value := map (map np_exp) x in
  prediction <- map_raise (fun row => tensor_get row (value self)) actual_value ;;
  let prediction := map (bracket self) prediction in
  target <- map_raise argmax y ;;
  Some (prediction, target).

End lazy_classifier2.

(** ** Frames

    A pandas [DataFrame] as the code uses it: a number of rows (the
    length of the index) and labelled columns, in order.  [read_csv]
    yields rectangular frames with pairwise distinct labels; the
    operations below do not depend on it, the theorems say where they
    do. *)

Definition column : Type := string * list num.

Record DataFrame : Type := mkFrame { nrows : nat; columns : list column }.

Definition labels (df : DataFrame) : list string := map fst (columns df).

Definition mem_label (l : string) (ls : list string) : bool :=
  existsb (String.eqb l) ls.

(** [df.drop(columns=ls)] and [df.drop(l, axis=1)]: every label must be
    present; the columns carrying one of them are removed. *)
Definition drop_columns (ls : list string) (df : DataFrame) : option DataFrame :=
  if forallb (fun l => mem_label l (labels df)) ls then
    Some (mkFrame (nrows df)
            (filter (fun c => negb (mem_label (fst c) ls)) (columns df)))
  else None.

(** [data.drop(data.columns[0], axis=1)] *)
Definition drop_first_column (df : DataFrame) : option DataFrame :=
  match labels df with
  | [] => None
  | l :: _ => drop_columns [l] df
  end.

Definition map_values (f : string -> num -> num) (df : DataFrame) : DataFrame :=
  mkFrame (nrows df) (map (fun c => (fst c, map (f (fst c)) (snd c))) (columns df)).

(** [data.mask(data < 1, 1)] *)
Definition clip (v : num) : num := if (v <? one)%num then one else v.

Definition mask_lt1 (df : DataFrame) : DataFrame := map_values (fun _ => clip) df.

(** [data[l] = np.log(data[l])]: reading an absent label raises. *)
Definition assign_log (l : string) (df : DataFrame) : option DataFrame :=
  if mem_label l (labels df) then
    Some (map_values (fun n v => if String.eqb n l then np_log v else v) df)
  else None.

Fixpoint mapi_from {A B : Type} (k : nat) (f : nat -> A -> B) (l : list A) : list B :=
  match l with
  | [] => []
  | a :: l' => f k a :: mapi_from (S k) f l'
  end.

Definition mapi {A B : Type} (f : nat -> A -> B) (l : list A) : list B :=
  mapi_from 0%nat f l.

(** [data + noise] for the array [noise] of shape [[len(data), 12]],
    given by its entries [noise i j] (row [i], column [j]): the frame
    must have 12 columns. *)
Definition add_noise (noise : nat -> nat -> R) (df : DataFrame) : option DataFrame :=
  if Nat.eqb (List.length (columns df)) 12 then
    Some (mkFrame (nrows df)
            (mapi (fun j c =>
                     (fst c, mapi (fun i v => (v + Fin (noise i j))%num) (snd c)))
                  (columns df)))
  else None.

(** [Series.max()] and [Series.min()] skip not-a-number entries and give
    not-a-number when nothing is left. *)
Definition max_step (acc v : num) : num :=
  match acc, v with
  | NaN, _ => v
  | _, NaN => acc
  | Fin a, Fin b => Fin (Rmax a b)
  end.

Definition min_step (acc v : num) : num :=
  match acc, v with
  | NaN, _ => v
  | _, NaN => acc
  | Fin a, Fin b => Fin (Rmin a b)
  end.

Definition series_max (vs : list num) : num := fold_left max_step vs NaN.
Definition series_min (vs : list num) : num := fold_left min_step vs NaN.

(** [data.max(axis=0)[k]] and [data.min(axis=0)[k]]: the integer key
    selects by position. *)
Definition frame_max_at (k : nat) (df : DataFrame) : option num :=
  c <- nth_error (columns df) k ;; Some (series_max (snd c)).

Definition frame_min_at (k : nat) (df : DataFrame) : option num :=
  c <- nth_error (columns df) k ;; Some (series_min (snd c)).

(** [data.iloc[idx]]: the row as a series, one entry per column. *)
Definition iloc (df : DataFrame) (idx : Z) : option (list num) :=
  i <- py_index (nrows df) idx ;;
  Some (map (fun c => nth i (snd c) NaN) (columns df)).

(** [row[a:b]] *)
Definition slice {A : Type} (a b : nat) (l : list A) : list A :=
  firstn (b - a) (skipn a l).

Fixpoint set_nth {A : Type} (i : nat) (v : A) (l : list A) : list A :=
  match i, l with
  | _, [] => []
  | O, _ :: l' => v :: l'
  | S i', a :: l' => a :: set_nth i' v l'
  end.

(** [t[k] = v] on a tensor or list. *)
Definition tensor_set {A : Type} (t : list A) (k : Z) (v : A) : option (list A) :=
  i <- py_index (List.length t) k ;; Some (set_nth i v t).

(** [l.pop(k)], keeping the list that remains. *)
Fixpoint remove_nth {A : Type} (i : nat) (l : list A) : list A :=
  match i, l with
  | _, [] => []
  | O, _ :: l' => l'
  | S i', a :: l' => a :: remove_nth i' l'
  end.

Definition list_pop {A : Type} (l : list A) (k : Z) : option (list A) :=
  i <- py_index (List.length l) k ;; Some (remove_nth i l).

Definition x_cols : list string :=
  ["xTarget"; "xPre-Infected"; "xInfected"; "xVirus"; "xCDE8e"; "xCD8m"].

Definition y_cols : list string :=
  ["yTarget"; "yPre-Infected"; "yInfected"; "yVirus"; "yCDE8e"; "yCD8m"].

(** ** The datasets

    Each constructor takes the frame [pd.read_csv(path)] returned. *)

Module ODEDataset.

Record t : Type := mk { data : DataFrame }.

Definition init (csv : DataFrame) : option t :=
  data <- drop_first_column csv ;;
  let data := mask_lt1 data in
  data <- assign_log "xTarget" data ;;
  data <- assign_log "xPre-Infected" data ;;
  data <- assign_log "xInfected" data ;;
  data <- assign_log "xVirus" data ;;
  data <- assign_log "xCDE8e" data ;;
  data <- assign_log "xCD8m" data ;;
  Some (mk data).

Definition len (self : t) : nat := nrows (data self).

Definition getitem (self : t) (idx : Z) : option (list num * list num) :=
  row <- iloc (data self) idx ;;
  let x := slice 0 6 row in
  let y := slice 6 12 row in
  Some (x, y).

End ODEDataset.

Module ODEDatasetClassifier.

Record t : Type := mk { atr : Z; y_max : num; y_min : num; data : DataFrame }.

Definition init (csv : DataFrame) (atr : Z) : option t :=
  data <- drop_first_column csv ;;
  let data := mask_lt1 data in
  data <- assign_log "xTarget" data ;;
  data <- assign_log "xPre-Infected" data ;;
  data <- assign_log "xInfected" data ;;
  data <- assign_log "xVirus" data ;;
  data <- assign_log "xCDE8e" data ;;
  data <- assign_log "xCD8m" data ;;
  y_cols <- list_pop y_cols atr ;;
  data <- drop_columns y_cols data ;;
  y_max <- frame_max_at 6 data ;;
  y_min <- frame_min_at 6 data ;;
  Some (mk atr y_max y_min data).

Definition len (self : t) : nat := nrows (data self).

Definition bracket (self : t) (y : num) : Z :=
  let y_mid := ((y_min self + y_max self) / two)%num in
  if (y >? y_mid)%num then
    if (y >? (y_mid + y_max self) / two)%num then 3 else 2
  else if (y >? (y_mid + y_min self) / two)%num then 1
  else 0.

Definition getitem (self : t) (idx : Z) : option (list num * list num) :=
  row <- iloc (data self) idx ;;
  let x := slice 0 6 row in
  y <- nth_error row 6 ;;
  let y_tensor := repeat zero 4 in
  y_tensor <- tensor_set y_tensor (bracket self y) one ;;
  Some (x, y_tensor).

End ODEDatasetClassifier.

Module ODEDatasetClassifierNoisy.

Record t : Type := mk { atr : Z; y_max : num; y_min : num; data : DataFrame }.

(** [noise] is the array drawn by [np.random.normal]. *)
Definition init (noise : nat -> nat -> R) (csv : DataFrame) (atr : Z) : option t :=
  data <- drop_first_column csv ;;
  data <- add_noise noise data ;;
  let data := mask_lt1 data in
  data <- assign_log "xTarget" data ;;
  data <- assign_log "xPre-Infected" data ;;
  data <- assign_log "xInfected" data ;;
  data <- assign_log "xVirus" data ;;
  data <- assign_log "xCDE8e" data ;;
  data <- assign_log "xCD8m" data ;;
  y_cols <- list_pop y_cols atr ;;
  data <- drop_columns y_cols data ;;
  y_max <- frame_max_at 6 data ;;
  y_min <- frame_min_at 6 data ;;
  Some (mk atr y_max y_min data).

Definition len (self : t) : nat := nrows (data self).

Definition bracket (self : t) (y : num) : Z :=
  let y_mid := ((y_min self + y_max self) / two)%num in
  if (y >? y_mid)%num then
    if (y >? (y_mid + y_max self) / two)%num then 3 else 2
  else if (y >? (y_mid + y_min self) / two)%num then 1
  else 0.

Definition getitem (self : t) (idx : Z) : option (list num * list num) :=
  row <- iloc (data self) idx ;;
  let x := slice 0 6 row in
  y <- nth_error row 6 ;;
  let y_tensor := repeat zero 4 in
  y_tensor <- tensor_set y_tensor (bracket self y) one ;;
  Some (x, y_tensor).

End ODEDatasetClassifierNoisy.

(** The script's rule-based model, built from the attributes of the
    dataset (line 352). *)
Module main.

Definition lazy_model (dataset : ODEDatasetClassifier.t) : lazy_classifier.t :=
  lazy_classifier.init
    (ODEDatasetClassifier.atr dataset)
    (ODEDatasetClassifier.y_max dataset)
    (ODEDatasetClassifier.y_min dataset).

End main.

(** ** [bracket] on binary64 values

    [self.y_min], [self.y_max] and [y] are numpy float64 values: IEEE 754
    binary64 with rounding to nearest, ties to even, which Rocq's
    primitive floats implement.  Every sum and every halving is rounded,
    a sum beyond the largest finite value is an infinity, and a
    comparison with a not-a-number is false. *)
Module Binary64.

(** The two attributes [bracket] reads. *)
Record t : Type := mk { y_max : float; y_min : float }.

(** [a > b] *)
Definition gtb (a b : float) : bool := (b <? a)%float.

(** [ODEDatasetClassifier.bracket] (lines 272 to 281). *)
Definition bracket (self : t) (y : float) : Z :=
  let y_mid := ((y_min self + y_max self) / 2)%float in
  if gtb y y_mid then
    if gtb y ((y_mid + y_max self) / 2)%float then 3 else 2
  else if gtb y ((y_mid + y_min self) / 2)%float then 1
  else 0.

End Binary64.

(** ** Vocabulary of the properties *)

(** The three thresholds of [Binary64.bracket], as the code computes
    them: the midpoint of the range, and the midpoints of its lower and
    of its upper half. *)
Definition mid64 (self : Binary64.t) : float :=
  ((Binary64.y_min self + Binary64.y_max self) / 2)%float.

Definition lower64 (self : Binary64.t) : float :=
  ((mid64 self + Binary64.y_min self) / 2)%float.

Definition upper64 (self : Binary64.t) : float :=
  ((mid64 self + Binary64.y_max self) / 2)%float.

(** A binary64 value that is not a not-a-number: it equals itself. *)
Definition is_number (y : float) : bool := (y =? y)%float.

(** The body the four [bracket] methods share. *)
Definition bracket_body (lo hi y : num) : Z :=
  let y_mid := ((lo + hi) / two)%num in
  if (y >? y_mid)%num then
    if (y >? (y_mid + hi) / two)%num then 3 else 2
  else if (y >? (y_mid + lo) / two)%num then 1
  else 0.

(** What the constructors do to the value [v] of a column labelled [n]. *)
Definition pre_transform (n : string) (v : num) : num :=
  if mem_label n x_cols then np_log (clip v) else clip v.

(** The six [data[l] = np.log(data[l])] statements in one step. *)
Definition log_x_cols (df : DataFrame) : option DataFrame :=
  if forallb (fun l => mem_label l (labels df)) x_cols then
    Some (map_values pre_transform df)
  else None.

(** The test [drop_columns [l]] applies to a column. *)
Definition other_label (l : string) (c : column) : bool :=
  negb (mem_label (fst c) [l]).

(** The frame [noisy] with the first column of [csv] in front again. *)
Definition with_index_of (csv noisy : DataFrame) : DataFrame :=
  mkFrame (nrows noisy) (firstn 1 (columns csv) ++ columns noisy).

(** The attributes of a noisy dataset, read as those of
    [ODEDatasetClassifier]: the two classes declare the same four. *)
Definition as_classifier (n : ODEDatasetClassifierNoisy.t) : ODEDatasetClassifier.t :=
  ODEDatasetClassifier.mk
    (ODEDatasetClassifierNoisy.atr n) (ODEDatasetClassifierNoisy.y_max n)
    (ODEDatasetClassifierNoisy.y_min n) (ODEDatasetClassifierNoisy.data n).

(** No value of the frame is not-a-number. *)
Definition all_finite (df : DataFrame) : Prop :=
  Forall (fun c : column => Forall is_fin (snd c)) (columns df).

(** Every column has one entry per row. *)
Definition rectangular (df : DataFrame) : Prop :=
  Forall (fun c : column => List.length (snd c) = nrows df) (columns df).

(** A value of a column labelled [n] that is finite and in the range the
    constructors leave it in: at least 0 in a pre column (a logarithm), at
    least 1 elsewhere. *)
Definition value_ok (n : string) (v : num) : Prop :=
  exists r : R, v = Fin r /\ if mem_label n x_cols then (0 <= r)%R else (1 <= r)%R.

(** The invariant of the frame a dataset stores. *)
Definition stored_ok (df : DataFrame) : Prop :=
  Forall (fun c : column => Forall (value_ok (fst c)) (snd c)) (columns df).

(** A frame before the logarithms: every value finite and at least 1. *)
Definition clipped_ok (df : DataFrame) : Prop :=
  Forall (fun c : column =>
            Forall (fun v => exists r : R, v = Fin r /\ (1 <= r)%R) (snd c))
         (columns df).

(** A data file in the layout the positional reads [row[0:6]],
    [row[6:12]] and [row[6]] expect: a first column, the six pre columns,
    the six post columns. *)
Definition standard_csv (n : nat) (c0 : column)
    (xT xP xI xV xE xM yT yP yI yV yE yM : list num) : DataFrame :=
  mkFrame n
    [ c0;
      ("xTarget", xT); ("xPre-Infected", xP); ("xInfected", xI);
      ("xVirus", xV); ("xCDE8e", xE); ("xCD8m", xM);
      ("yTarget", yT); ("yPre-Infected", yP); ("yInfected", yI);
      ("yVirus", yV); ("yCDE8e", yE); ("yCD8m", yM) ].

(** The labels [translate] can return, class by class. *)
Definition severity_labels : list string :=
  ["Low"; "Medium-Low"; "Medium-High"; "High"].

(** A small data file: two records, the twelve fields in the order the
    positional reads expect, behind an unnamed index column. *)
Definition sample_rest : list column :=
  [ ("xTarget", [Fin 4; Fin 8]);
    ("xPre-Infected", [Fin 0; Fin 2]);
    ("xInfected", [Fin 0; Fin 3]);
    ("xVirus", [Fin 5; Fin 6]);
    ("xCDE8e", [Fin 1; Fin 2]);
    ("xCD8m", [Fin 1; Fin 1]);
    ("yTarget", [Fin 3; Fin 7]);
    ("yPre-Infected", [Fin 1; Fin 2]);
    ("yInfected", [Fin 0; Fin 4]);
    ("yVirus", [Fin 2; Fin 10]);
    ("yCDE8e", [Fin 2; Fin 3]);
    ("yCD8m", [Fin 1; Fin 1]) ].

Definition sample_csv : DataFrame :=
  mkFrame 2 (("Unnamed: 0", [Fin 0; Fin 1]) :: sample_rest).

(** The same records under another first column. *)
Definition sample_csv_renumbered : DataFrame :=
  mkFrame 2 (("id", [Fin 7; Fin 9]) :: sample_rest).

(** The sample frame without its first column. *)
Definition sample_raw : DataFrame := mkFrame 2 sample_rest.

(** One draw of the noise array. *)
Definition sample_noise (i j : nat) : R :=
  if Nat.even (i + j) then 10 else (-10).

(** * Properties *)

(** ** Arithmetic on [num] *)

Lemma div_two (x : R) : (Fin x / two)%num = Fin (x / 2).
Proof.
  unfold two; simpl. destruct (Req_dec_T 2 0) as [E | _]; [lra | reflexivity].
Qed.

Lemma gtb_fin (x y : R) : (Fin x >? Fin y)%num = true <-> (x > y)%R.
Proof.
  simpl. destruct (Rgt_dec x y); split; intros; try discriminate; tauto.
Qed.

Lemma gtb_fin_false (x y : R) : (Fin x >? Fin y)%num = false <-> (x <= y)%R.
Proof.
  simpl. destruct (Rgt_dec x y); split; intros; try discriminate; try lra; reflexivity.
Qed.

Lemma gtb_nan_r (a : num) : (a >? NaN)%num = false.
Proof. destruct a; reflexivity. Qed.

(** ** The body the four [bracket] methods share *)

Lemma lazy_bracket_body (self : lazy_classifier.t) (y : num) :
  lazy_classifier.bracket self y =
  bracket_body (lazy_classifier.y_min self) (lazy_classifier.y_max self) y.
Proof. reflexivity. Qed.

Lemma lazy2_bracket_body (self : lazy_classifier2.t) (y : num) :
  lazy_classifier2.bracket self y =
  bracket_body (lazy_classifier2.y_min self) (lazy_classifier2.y_max self) y.
Proof. reflexivity. Qed.

Lemma dataset_bracket_body (self : ODEDatasetClassifier.t) (y : num) :
  ODEDatasetClassifier.bracket self y =
  bracket_body (ODEDatasetClassifier.y_min self) (ODEDatasetClassifier.y_max self) y.
Proof. reflexivity. Qed.

Lemma noisy_bracket_body (self : ODEDatasetClassifierNoisy.t) (y : num) :
  ODEDatasetClassifierNoisy.bracket self y =
  bracket_body (ODEDatasetClassifierNoisy.y_min self)
               (ODEDatasetClassifierNoisy.y_max self) y.
Proof. reflexivity. Qed.

Lemma bracket_body_range (lo hi y : num) : In (bracket_body lo hi y) [0; 1; 2; 3].
Proof.
  unfold bracket_body.
  repeat match goal with |- context [if ?b then _ else _] => destruct b end;
    simpl; tauto.
Qed.

(** On finite thresholds the body is the nested comparison on reals. *)
Lemma bracket_body_fin (lo hi y : R) :
  bracket_body (Fin lo) (Fin hi) (Fin y) =
  let mid := ((lo + hi) / 2)%R in
  if Rgt_dec y mid then
    if Rgt_dec y ((mid + hi) / 2) then 3 else 2
  else if Rgt_dec y ((mid + lo) / 2) then 1
  else 0.
Proof.
  unfold bracket_body.
  cbn [num_add]. rewrite div_two. cbn [num_add]. rewrite !div_two.
  cbn [num_gtb]. cbv zeta.
  repeat match goal with |- context [Rgt_dec ?a ?b] => destruct (Rgt_dec a b) end;
    reflexivity.
Qed.

(** With a threshold that is not a number every comparison fails. *)
Lemma bracket_body_nan_lo (hi y : num) : bracket_body NaN hi y = 0.
Proof. unfold bracket_body; simpl. rewrite !gtb_nan_r. reflexivity. Qed.

Lemma bracket_body_nan_hi (lo y : num) : bracket_body lo NaN y = 0.
Proof.
  unfold bracket_body. destruct lo; simpl; rewrite !gtb_nan_r; reflexivity.
Qed.

Lemma bracket_body_nan_y (lo hi : num) : bracket_body lo hi NaN = 0.
Proof. reflexivity. Qed.

(** Monotonicity needs no order between the thresholds: the first test
    sorts [y] into an upper or a lower half, the second refines it. *)
Lemma bracket_body_mono (lo hi : num) (y1 y2 : R) :
  (y1 <= y2)%R -> bracket_body lo hi (Fin y1) <= bracket_body lo hi (Fin y2).
Proof.
  intros Hy.
  destruct lo as [| lo]; [rewrite !bracket_body_nan_lo; lia |].
  destruct hi as [| hi]; [rewrite !bracket_body_nan_hi; lia |].
  rewrite !bracket_body_fin. cbv zeta.
  repeat match goal with |- context [Rgt_dec ?a ?b] => destruct (Rgt_dec a b) end;
    try lia; exfalso; lra.
Qed.

Ltac bracket_cases :=
  rewrite ?bracket_body_fin; cbv zeta;
  repeat match goal with |- context [Rgt_dec ?a ?b] => destruct (Rgt_dec a b) end.

(** ** The order of binary64 values

    The comparisons of the primitive floats are specified on
    [spec_float], where [SFcompare] orders numbers by sign, exponent and
    mantissa. *)

Ltac sf_signs :=
  repeat match goal with s : bool |- _ => destruct s end;
  simpl; try discriminate; try reflexivity; try tauto.

Ltac sf_compare :=
  change (Pos.compare_cont Eq) with Pos.compare in *;
  repeat match goal with
         | |- context [Z.compare ?a ?b] => destruct (Z.compare_spec a b)
         | |- context [Pos.compare ?a ?b] => destruct (Pos.compare_spec a b)
         end;
  simpl; try discriminate; try reflexivity; try tauto; try lia.

Lemma SFleb_ltb_trans (x y z : spec_float) :
  SFleb x y = true -> SFltb y z = true -> SFltb x z = true.
Proof.
  unfold SFleb, SFltb.
  destruct x as [sx | sx | | sx mx ex], y as [sy | sy | | sy my ey],
    z as [sz | sz | | sz mz ez]; simpl; try discriminate; try reflexivity;
    sf_signs; sf_compare.
Qed.

Lemma SFleb_trans (x y z : spec_float) :
  SFleb x y = true -> SFleb y z = true -> SFleb x z = true.
Proof.
  unfold SFleb.
  destruct x as [sx | sx | | sx mx ex], y as [sy | sy | | sy my ey],
    z as [sz | sz | | sz mz ez]; simpl; try discriminate; try reflexivity;
    sf_signs; sf_compare.
Qed.

Lemma SFleb_not_ltb (x y : spec_float) :
  SFleb x y = true -> SFltb y x = false.
Proof.
  unfold SFleb, SFltb.
  destruct x as [sx | sx | | sx mx ex], y as [sy | sy | | sy my ey];
    simpl; try discriminate; try reflexivity; sf_signs; sf_compare.
Qed.

Lemma SFnot_ltb_leb (x y : spec_float) :
  SFeqb x x = true -> SFeqb y y = true -> SFltb y x = false -> SFleb x y = true.
Proof.
  unfold SFleb, SFltb, SFeqb.
  destruct x as [sx | sx | | sx mx ex], y as [sy | sy | | sy my ey];
    simpl; try discriminate; try reflexivity; sf_signs; sf_compare.
Qed.

Lemma SFleb_number (x y : spec_float) :
  SFleb x y = true -> SFeqb x x = true /\ SFeqb y y = true.
Proof.
  unfold SFleb, SFeqb.
  destruct x as [sx | sx | | sx mx ex], y as [sy | sy | | sy my ey];
    simpl; try discriminate; intros _; split; sf_signs; sf_compare.
Qed.

Lemma SFltb_number (x y : spec_float) :
  SFltb x y = true -> SFeqb x x = true /\ SFeqb y y = true.
Proof.
  unfold SFltb, SFeqb.
  destruct x as [sx | sx | | sx mx ex], y as [sy | sy | | sy my ey];
    simpl; try discriminate; intros _; split; sf_signs; sf_compare.
Qed.

Lemma SFleb_refl (x : spec_float) : SFeqb x x = true -> SFleb x x = true.
Proof.
  unfold SFleb, SFeqb. destruct (SFcompare x x) as [[| |] |]; congruence.
Qed.

(** The same on the primitive values, with [a > b] for [b < a]. *)
Lemma gtb64_above (a b y : float) :
  (a <=? b)%float = true -> Binary64.gtb y b = true -> Binary64.gtb y a = true.
Proof.
  unfold Binary64.gtb. rewrite leb_spec, !ltb_spec. apply SFleb_ltb_trans.
Qed.

Lemma leb64_trans (a b c : float) :
  (a <=? b)%float = true -> (b <=? c)%float = true -> (a <=? c)%float = true.
Proof. rewrite !leb_spec. apply SFleb_trans. Qed.

Lemma leb64_not_gtb (y q : float) :
  (y <=? q)%float = true -> Binary64.gtb y q = false.
Proof. unfold Binary64.gtb. rewrite leb_spec, ltb_spec. apply SFleb_not_ltb. Qed.

Lemma not_gtb64_leb (y q : float) :
  is_number y = true -> is_number q = true ->
  Binary64.gtb y q = false -> (y <=? q)%float = true.
Proof.
  unfold Binary64.gtb, is_number. rewrite leb_spec, ltb_spec, !eqb_spec.
  apply SFnot_ltb_leb.
Qed.

Lemma leb64_number (a b : float) :
  (a <=? b)%float = true -> is_number a = true /\ is_number b = true.
Proof. unfold is_number. rewrite leb_spec, !eqb_spec. apply SFleb_number. Qed.

Lemma gtb64_number (a b : float) :
  Binary64.gtb a b = true -> is_number a = true /\ is_number b = true.
Proof.
  unfold Binary64.gtb, is_number. rewrite ltb_spec, !eqb_spec. intros H.
  apply SFltb_number in H. tauto.
Qed.

Lemma leb64_refl (a : float) : is_number a = true -> (a <=? a)%float = true.
Proof. unfold is_number. rewrite leb_spec, eqb_spec. apply SFleb_refl. Qed.

(** ** [bracket] *)

(** C1.  For thresholds [y_min <= y_max] and every real input, [bracket]
    (of [lazy_classifier] and of [ODEDatasetClassifier]) returns one of
    0, 1, 2, 3, and it is monotonic non-decreasing in its input. *)
Theorem bracket_range_monotone (value atr : Z) (data : DataFrame) (lo hi : R) :
  (lo <= hi)%R ->
  let lz := lazy_classifier.init value (Fin hi) (Fin lo) in
  let ds := ODEDatasetClassifier.mk atr (Fin hi) (Fin lo) data in
  (forall y : R,
      In (lazy_classifier.bracket lz (Fin y)) [0; 1; 2; 3] /\
      In (ODEDatasetClassifier.bracket ds (Fin y)) [0; 1; 2; 3]) /\
  (forall y1 y2 : R, (y1 <= y2)%R ->
      lazy_classifier.bracket lz (Fin y1) <= lazy_classifier.bracket lz (Fin y2) /\
      ODEDatasetClassifier.bracket ds (Fin y1) <= ODEDatasetClassifier.bracket ds (Fin y2)).
Proof.
  intros _ lz ds. split.
  - intros y. rewrite lazy_bracket_body, dataset_bracket_body.
    split; apply bracket_body_range.
  - intros y1 y2 Hy. rewrite !lazy_bracket_body, !dataset_bracket_body.
    split; apply bracket_body_mono; exact Hy.
Qed.

Lemma bracket_range_monotone_witness :
  (0 <= 4)%R /\
  (forall y1 y2 : R, (y1 <= y2)%R ->
      lazy_classifier.bracket (lazy_classifier.init 3 (Fin 4) (Fin 0)) (Fin y1)
      <= lazy_classifier.bracket (lazy_classifier.init 3 (Fin 4) (Fin 0)) (Fin y2)).
Proof.
  split; [lra |].
  intros y1 y2 Hy.
  apply (proj2 (bracket_range_monotone 3 3 (mkFrame 0 []) 0 4 ltac:(lra)) y1 y2 Hy).
Defined.

(** C2, as claimed, fails on the binary64 values the code computes on.  With
    [y_min = 1 + 2^-52] and [y_max = 1 + 2^-51], two neighbouring values,
    the sum rounds up and every threshold equals [y_max], which lands in
    bracket 0, not 3.  With [y_min = 1e308] and [y_max = 1.5e308] the sum
    is infinite, so is every threshold, and [y_max] lands in bracket 0
    again.  With [y_min = 1.0], [y_max = 1.2] and [y = 1.1], that is
    [m * 2^-52] for the three mantissas below, [y] lies above the exact
    midpoint of the range and below its exact upper quarter, yet the
    computed midpoint is [y] itself and [y] lands in bracket 1, not 2. *)
Lemma bracket_binary64_rounds :
  ((0x1.0000000000001p+0 <? 0x1.0000000000002p+0)%float = true /\
   Binary64.bracket (Binary64.mk 0x1.0000000000002p+0 0x1.0000000000001p+0)
     0x1.0000000000002p+0 = 0) /\
  ((0x1.1ccf385ebc8ap+1023 <? 0x1.ab36d48e1acfp+1023)%float = true /\
   Binary64.bracket (Binary64.mk 0x1.ab36d48e1acfp+1023 0x1.1ccf385ebc8ap+1023)
     0x1.ab36d48e1acfp+1023 = 0) /\
  (Prim2SF 1 = S754_finite false 4503599627370496 (-52) /\
   Prim2SF 0x1.3333333333333p+0 = S754_finite false 5404319552844595 (-52) /\
   Prim2SF 0x1.199999999999ap+0 = S754_finite false 4953959590107546 (-52) /\
   4503599627370496 + 5404319552844595 < 2 * 4953959590107546 /\
   4 * 4953959590107546 <= 4503599627370496 + 3 * 5404319552844595 /\
   Binary64.bracket (Binary64.mk 0x1.3333333333333p+0 1) 0x1.199999999999ap+0 = 1).
Proof.
  repeat split; try reflexivity; vm_compute; congruence.
Qed.

(** C2, on binary64 values.  [ODEDatasetClassifier.bracket] is a two-level
    decision on three thresholds it computes with rounding:
    [mid = (y_min + y_max) / 2], [q1 = (mid + y_min) / 2] and
    [q3 = (mid + y_max) / 2].  On every input the result is 3 exactly
    when [y > mid] and [y > q3], 2 exactly when [y > mid] and not
    [y > q3], 1 exactly when not [y > mid] and [y > q1], and 0 otherwise.
    When the computed thresholds are in order, [q1 <= mid <= q3], one
    threshold decides each bracket: 3 exactly when [y > q3], 2 exactly
    when [mid < y <= q3], 1 exactly when [q1 < y <= mid], and 0 exactly
    when [y <= q1] or [y] is not a number; a value equal to a threshold
    falls into the bracket below it; [y_min] lands in bracket 0 as soon as
    [y_min <= q1]; and [y_max] lands in bracket 3 exactly when
    [y_max > q3], which [y_min < y_max] does not ensure. *)
Theorem bracket_binary64_split (self : Binary64.t) (y : float) :
  let mid := mid64 self in
  let q1 := lower64 self in
  let q3 := upper64 self in
  ((Binary64.bracket self y = 3 <->
      Binary64.gtb y mid = true /\ Binary64.gtb y q3 = true) /\
   (Binary64.bracket self y = 2 <->
      Binary64.gtb y mid = true /\ Binary64.gtb y q3 = false) /\
   (Binary64.bracket self y = 1 <->
      Binary64.gtb y mid = false /\ Binary64.gtb y q1 = true) /\
   (Binary64.bracket self y = 0 <->
      Binary64.gtb y mid = false /\ Binary64.gtb y q1 = false)) /\
  ((q1 <=? mid)%float = true -> (mid <=? q3)%float = true ->
   (Binary64.bracket self y = 3 <-> Binary64.gtb y q3 = true) /\
   (Binary64.bracket self y = 2 <->
      Binary64.gtb y mid = true /\ (y <=? q3)%float = true) /\
   (Binary64.bracket self y = 1 <->
      Binary64.gtb y q1 = true /\ (y <=? mid)%float = true) /\
   (Binary64.bracket self y = 0 <->
      (y <=? q1)%float = true \/ is_number y = false) /\
   Binary64.bracket self q1 = 0 /\
   (Binary64.gtb mid q1 = true -> Binary64.bracket self mid = 1) /\
   (Binary64.gtb q3 mid = true -> Binary64.bracket self q3 = 2) /\
   ((Binary64.y_min self <=? q1)%float = true ->
    Binary64.bracket self (Binary64.y_min self) = 0) /\
   (Binary64.bracket self (Binary64.y_max self) = 3 <->
    Binary64.gtb (Binary64.y_max self) q3 = true)).
Proof.
  intros mid q1 q3.
  assert (Hdec : forall v, Binary64.bracket self v =
            if Binary64.gtb v mid then if Binary64.gtb v q3 then 3 else 2
            else if Binary64.gtb v q1 then 1 else 0) by (intros v; reflexivity).
  split.
  - rewrite Hdec.
    destruct (Binary64.gtb y mid), (Binary64.gtb y q3), (Binary64.gtb y q1);
      intuition (try discriminate; try reflexivity).
  - intros H1 H3.
    destruct (leb64_number _ _ H1) as [Nq1 Nmid].
    destruct (leb64_number _ _ H3) as [_ Nq3].
    assert (H3' : forall v, Binary64.bracket self v = 3 <-> Binary64.gtb v q3 = true).
    { intros v. rewrite Hdec. split.
      - destruct (Binary64.gtb v mid), (Binary64.gtb v q3), (Binary64.gtb v q1);
          intros E; try discriminate E; reflexivity.
      - intros E. rewrite (gtb64_above mid q3 v H3 E), E. reflexivity. }
    assert (H0' : forall v, Binary64.bracket self v = 0 <->
                            (v <=? q1)%float = true \/ is_number v = false).
    { intros v. rewrite Hdec. split.
      - destruct (Binary64.gtb v mid) eqn:Em; [destruct (Binary64.gtb v q3); discriminate |].
        destruct (Binary64.gtb v q1) eqn:E1; [discriminate |]. intros _.
        destruct (is_number v) eqn:Nv; [left | right; reflexivity].
        apply not_gtb64_leb; assumption.
      - intros [E | E].
        + rewrite (leb64_not_gtb v mid (leb64_trans _ _ _ E H1)), (leb64_not_gtb v q1 E).
          reflexivity.
        + destruct (Binary64.gtb v mid) eqn:Em;
            [apply gtb64_number in Em; destruct Em; congruence |].
          destruct (Binary64.gtb v q1) eqn:E1;
            [apply gtb64_number in E1; destruct E1; congruence |]. reflexivity. }
    assert (H2' : forall v, Binary64.bracket self v = 2 <->
                            Binary64.gtb v mid = true /\ (v <=? q3)%float = true).
    { intros v. rewrite Hdec. split.
      - destruct (Binary64.gtb v mid) eqn:Em.
        + destruct (Binary64.gtb v q3) eqn:E3; [discriminate |]. intros _.
          split; [reflexivity |]. apply not_gtb64_leb; try assumption.
          apply (gtb64_number _ _ Em).
        + destruct (Binary64.gtb v q1); discriminate.
      - intros [Em E]. rewrite Em, (leb64_not_gtb v q3 E). reflexivity. }
    assert (H1' : forall v, Binary64.bracket self v = 1 <->
                            Binary64.gtb v q1 = true /\ (v <=? mid)%float = true).
    { intros v. rewrite Hdec. split.
      - destruct (Binary64.gtb v mid) eqn:Em;
          [destruct (Binary64.gtb v q3); discriminate |].
        destruct (Binary64.gtb v q1) eqn:E1; [| discriminate]. intros _.
        split; [reflexivity |]. apply not_gtb64_leb; try assumption.
        apply (gtb64_number _ _ E1).
      - intros [E1 E]. rewrite (leb64_not_gtb v mid E), E1. reflexivity. }
    split; [apply H3' |]. split; [apply H2' |]. split; [apply H1' |].
    split; [apply H0' |].
    split; [apply H0'; left; apply leb64_refl, Nq1 |].
    split; [intros E; apply H1'; split; [exact E | apply leb64_refl, Nmid] |].
    split; [intros E; apply H2'; split; [exact E | apply leb64_refl, Nq3] |].
    split; [intros E; apply H0'; left; exact E |].
    apply H3'.
Qed.

Lemma bracket_binary64_split_witness :
  (Binary64.bracket (Binary64.mk 10 2) 7 = 2 <->
     Binary64.gtb 7 6 = true /\ (7 <=? 8)%float = true) /\
  Binary64.bracket (Binary64.mk 10 2) 4 = 0 /\
  Binary64.bracket (Binary64.mk 10 2) 2 = 0.
Proof.
  destruct (proj2 (bracket_binary64_split (Binary64.mk 10 2) 7) eq_refl eq_refl)
    as (_ & H2 & _ & _ & Hq1 & _ & _ & Hmin & _).
  split; [exact H2 |]. split; [exact Hq1 | exact (Hmin eq_refl)].
Defined.


(** C9.  The four [bracket] methods compute the same function: instances
    holding the same [y_min] and [y_max] return the same value, one of
    0, 1, 2, 3, on every input (a not-a-number input or threshold
    included). *)
Theorem bracket_implementations_agree
    (v1 v2 a1 a2 : Z) (d1 d2 : DataFrame) (hi lo y : num) :
  let r := lazy_classifier.bracket (lazy_classifier.init v1 hi lo) y in
  lazy_classifier2.bracket (lazy_classifier2.init v2 hi lo) y = r /\
  ODEDatasetClassifier.bracket (ODEDatasetClassifier.mk a1 hi lo d1) y = r /\
  ODEDatasetClassifierNoisy.bracket (ODEDatasetClassifierNoisy.mk a2 hi lo d2) y = r /\
  In r [0; 1; 2; 3].
Proof.
  intros r. subst r.
  rewrite lazy_bracket_body, lazy2_bracket_body, dataset_bracket_body,
    noisy_bracket_body.
  repeat split; apply bracket_body_range.
Qed.

(** ** [translate] *)

(** C3, as claimed, fails: [lazy_classifier2.translate] does not send
    class 0 to "Low". *)
Lemma translate_lazy2_not_standard :
  ~ (forall translate : Z -> option string,
        In translate [ViralKineticsDNNClassifier.translate;
                      lazy_classifier.translate;
                      lazy_classifier2.translate] ->
        translate 0 = Some "Low" /\
        translate 1 = Some "Medium-Low" /\
        translate 2 = Some "Medium-High" /\
        translate 3 = Some "High").
Proof.
  intros H.
  destruct (H lazy_classifier2.translate) as [H0 _].
  - simpl; tauto.
  - discriminate H0.
Qed.

(** C3, amended.  [ViralKineticsDNNClassifier.translate] and
    [lazy_classifier.translate] send 0, 1, 2, 3 to the four distinct labels
    "Low", "Medium-Low", "Medium-High", "High";
    [lazy_classifier2.translate] sends them to "Medium-Low",
    "Medium-High", "High", "High": one severity step up, saturating at
    "High". *)
Theorem translate_labels :
  Forall (fun translate : Z -> option string =>
            map translate [0; 1; 2; 3] =
              [Some "Low"; Some "Medium-Low"; Some "Medium-High"; Some "High"] /\
            NoDup (map translate [0; 1; 2; 3]))
         [ViralKineticsDNNClassifier.translate; lazy_classifier.translate] /\
  map lazy_classifier2.translate [0; 1; 2; 3] =
    [Some "Medium-Low"; Some "Medium-High"; Some "High"; Some "High"] /\
  map lazy_classifier2.translate [0; 1; 2; 3] =
    map lazy_classifier.translate [1; 2; 3; 3].
Proof.
  split; [| split; reflexivity].
  repeat constructor; simpl; intuition discriminate.
Qed.

Ltac outside_range Hn :=
  match goal with
  | |- _ ?p = None =>
      destruct p as [| p | p];
      [ exfalso; apply Hn; simpl; tauto | | reflexivity ];
      destruct p as [[p | p |] | [p | p |] |];
      try reflexivity; exfalso; apply Hn; simpl; tauto
  end.

Lemma translate_dnn_none (p : Z) :
  ~ In p [0; 1; 2; 3] -> ViralKineticsDNNClassifier.translate p = None.
Proof. intros Hn. outside_range Hn. Qed.

Lemma translate_lazy_none (p : Z) :
  ~ In p [0; 1; 2; 3] -> lazy_classifier.translate p = None.
Proof. intros Hn. outside_range Hn. Qed.

Lemma translate_lazy2_none (p : Z) :
  ~ In p [0; 1; 2; 3] -> lazy_classifier2.translate p = None.
Proof. intros Hn. outside_range Hn. Qed.

(** A function that answers on 0, 1, 2, 3 and nowhere else. *)
Lemma partial_on_classes (f : Z -> option string) (p : Z) :
  (forall k, In k [0; 1; 2; 3] -> exists label, f k = Some label) ->
  (~ In p [0; 1; 2; 3] -> f p = None) ->
  ((exists label, f p = Some label) <-> In p [0; 1; 2; 3]) /\
  (f p = None <-> ~ In p [0; 1; 2; 3]).
Proof.
  intros Hsome Hnone.
  assert (Hdec : In p [0; 1; 2; 3] \/ ~ In p [0; 1; 2; 3]) by (simpl; lia).
  destruct Hdec as [Hp | Hn].
  - destruct (Hsome p Hp) as [label E]. split; split; intros; try assumption.
    + exists label; exact E.
    + congruence.
    + contradiction.
  - specialize (Hnone Hn). split; split; intros H; try assumption.
    + destruct H as [label E]. congruence.
    + contradiction.
Qed.

Ltac answers_on_classes :=
  intros k Hk; simpl in Hk;
  destruct Hk as [E | [E | [E | [E | []]]]]; subst k; eexists; reflexivity.

(** C10.  [translate] is partial: in each of the three classes it returns
    a label exactly for the predictions 0, 1, 2, 3 and nothing ([None])
    for every other prediction. *)
Theorem translate_partial (prediction : Z) :
  Forall (fun translate : Z -> option string =>
            ((exists label, translate prediction = Some label)
             <-> In prediction [0; 1; 2; 3]) /\
            (translate prediction = None <-> ~ In prediction [0; 1; 2; 3]))
         [ViralKineticsDNNClassifier.translate;
          lazy_classifier.translate;
          lazy_classifier2.translate].
Proof.
  apply Forall_cons; [| apply Forall_cons; [| apply Forall_cons; [| apply Forall_nil]]];
    apply partial_on_classes;
    first [ answers_on_classes
          | apply translate_dnn_none
          | apply translate_lazy_none
          | apply translate_lazy2_none ].
Qed.

(** ** Frames: clipping and the logarithm of the pre columns *)

Lemma labels_map_values (f : string -> num -> num) (df : DataFrame) :
  labels (map_values f df) = labels df.
Proof.
  unfold labels, map_values; simpl. rewrite map_map. reflexivity.
Qed.

Lemma map_values_compose (f g : string -> num -> num) (df : DataFrame) :
  map_values g (map_values f df) = map_values (fun n v => g n (f n v)) df.
Proof.
  unfold map_values; simpl. f_equal. rewrite map_map.
  apply map_ext; intros [n vs]; simpl. rewrite map_map. reflexivity.
Qed.

Lemma map_values_ext (f g : string -> num -> num) (df : DataFrame) :
  (forall n v, f n v = g n v) -> map_values f df = map_values g df.
Proof.
  intros E. unfold map_values. f_equal.
  apply map_ext; intros [n vs]; simpl. f_equal. apply map_ext; intros v; apply E.
Qed.

Lemma six_logs (n : string) (v : num) :
  (if String.eqb n "xCD8m" then np_log else fun w => w)
    ((if String.eqb n "xCDE8e" then np_log else fun w => w)
       ((if String.eqb n "xVirus" then np_log else fun w => w)
          ((if String.eqb n "xInfected" then np_log else fun w => w)
             ((if String.eqb n "xPre-Infected" then np_log else fun w => w)
                ((if String.eqb n "xTarget" then np_log else fun w => w)
                   (clip v))))))
  = pre_transform n v.
Proof.
  unfold pre_transform, mem_label, x_cols. cbn [existsb].
  destruct (String.eqb_spec n "xTarget") as [E | _]; [subst n; reflexivity |].
  destruct (String.eqb_spec n "xPre-Infected") as [E | _]; [subst n; reflexivity |].
  destruct (String.eqb_spec n "xInfected") as [E | _]; [subst n; reflexivity |].
  destruct (String.eqb_spec n "xVirus") as [E | _]; [subst n; reflexivity |].
  destruct (String.eqb_spec n "xCDE8e") as [E | _]; [subst n; reflexivity |].
  destruct (String.eqb_spec n "xCD8m") as [E | _]; [subst n; reflexivity |].
  reflexivity.
Qed.

(** The chain of statements shared by the three constructors. *)
Lemma log_chain {B : Type} (df : DataFrame) (k : DataFrame -> option B) :
  (data <- assign_log "xTarget" (mask_lt1 df) ;;
   data <- assign_log "xPre-Infected" data ;;
   data <- assign_log "xInfected" data ;;
   data <- assign_log "xVirus" data ;;
   data <- assign_log "xCDE8e" data ;;
   data <- assign_log "xCD8m" data ;;
   k data)
  = (data <- log_x_cols df ;; k data).
Proof.
  unfold log_x_cols, assign_log, mask_lt1, x_cols. cbn [forallb].
  rewrite !labels_map_values.
  destruct (mem_label "xTarget" (labels df)); [| reflexivity].
  cbn [bind andb]. rewrite !labels_map_values.
  destruct (mem_label "xPre-Infected" (labels df)); [| reflexivity].
  cbn [bind andb]. rewrite !labels_map_values.
  destruct (mem_label "xInfected" (labels df)); [| reflexivity].
  cbn [bind andb]. rewrite !labels_map_values.
  destruct (mem_label "xVirus" (labels df)); [| reflexivity].
  cbn [bind andb]. rewrite !labels_map_values.
  destruct (mem_label "xCDE8e" (labels df)); [| reflexivity].
  cbn [bind andb]. rewrite !labels_map_values.
  destruct (mem_label "xCD8m" (labels df)); [| reflexivity].
  cbn [bind andb]. f_equal.
  rewrite !map_values_compose. apply map_values_ext.
  intros n v. rewrite <- six_logs.
  repeat match goal with |- context [String.eqb n ?s] => destruct (String.eqb n s) end;
    reflexivity.
Qed.

Lemma ODEDataset_init_eq (csv : DataFrame) :
  ODEDataset.init csv =
  (raw <- drop_first_column csv ;;
   data <- log_x_cols raw ;;
   Some (ODEDataset.mk data)).
Proof.
  unfold ODEDataset.init. destruct (drop_first_column csv) as [raw |]; [| reflexivity].
  cbn [bind]. apply (log_chain raw).
Qed.

Lemma Classifier_init_eq (csv : DataFrame) (atr : Z) :
  ODEDatasetClassifier.init csv atr =
  (raw <- drop_first_column csv ;;
   data <- log_x_cols raw ;;
   ys <- list_pop y_cols atr ;;
   data <- drop_columns ys data ;;
   y_max <- frame_max_at 6 data ;;
   y_min <- frame_min_at 6 data ;;
   Some (ODEDatasetClassifier.mk atr y_max y_min data)).
Proof.
  unfold ODEDatasetClassifier.init.
  destruct (drop_first_column csv) as [raw |]; [| reflexivity].
  cbn [bind]. apply (log_chain raw).
Qed.

Lemma Noisy_init_eq (noise : nat -> nat -> R) (csv : DataFrame) (atr : Z) :
  ODEDatasetClassifierNoisy.init noise csv atr =
  (raw <- drop_first_column csv ;;
   noisy <- add_noise noise raw ;;
   data <- log_x_cols noisy ;;
   ys <- list_pop y_cols atr ;;
   data <- drop_columns ys data ;;
   y_max <- frame_max_at 6 data ;;
   y_min <- frame_min_at 6 data ;;
   Some (ODEDatasetClassifierNoisy.mk atr y_max y_min data)).
Proof.
  unfold ODEDatasetClassifierNoisy.init.
  destruct (drop_first_column csv) as [raw |]; [| reflexivity].
  cbn [bind]. destruct (add_noise noise raw) as [noisy |]; [| reflexivity].
  cbn [bind]. apply (log_chain noisy).
Qed.

Lemma mem_label_In (l : string) (ls : list string) :
  mem_label l ls = true <-> In l ls.
Proof.
  unfold mem_label. rewrite existsb_exists. split.
  - intros [x [Hx E]]. apply String.eqb_eq in E. subst x. exact Hx.
  - intros H. exists l. split; [exact H | apply String.eqb_refl].
Qed.

Lemma has_labels_forallb (ls have : list string) :
  forallb (fun l => mem_label l have) ls = true <-> (forall l, In l ls -> In l have).
Proof.
  rewrite forallb_forall. split; intros H l Hl.
  - apply mem_label_In, H, Hl.
  - apply mem_label_In, H, Hl.
Qed.

Lemma clip_below (r : R) : (r < 1)%R -> clip (Fin r) = Fin 1.
Proof.
  intros H. unfold clip, one; simpl. destruct (Rlt_dec r 1); [reflexivity | contradiction].
Qed.

Lemma clip_above (r : R) : (1 <= r)%R -> clip (Fin r) = Fin r.
Proof.
  intros H. unfold clip, one; simpl. destruct (Rlt_dec r 1); [lra | reflexivity].
Qed.

Lemma clip_fin (r : R) : clip (Fin r) = Fin (Rmax r 1).
Proof.
  destruct (Rlt_dec r 1) as [H | H].
  - rewrite clip_below by exact H. rewrite Rmax_right by lra. reflexivity.
  - rewrite clip_above by lra. rewrite Rmax_left by lra. reflexivity.
Qed.

Lemma clip_nan : clip NaN = NaN.
Proof. reflexivity. Qed.

(** After the clipping a value is not a number or at least 1. *)
Lemma clip_range (v : num) :
  clip v = NaN \/ exists r : R, clip v = Fin r /\ (1 <= r)%R.
Proof.
  destruct v as [| r]; [left; reflexivity | right].
  exists (Rmax r 1). split; [apply clip_fin | apply Rmax_r].
Qed.

Lemma np_log_fin (r : R) : (0 < r)%R -> np_log (Fin r) = Fin (ln r).
Proof.
  intros H. simpl. destruct (Rlt_dec 0 r); [reflexivity | contradiction].
Qed.

Lemma log_clip_fin (r : R) : np_log (clip (Fin r)) = Fin (ln (Rmax r 1)).
Proof.
  rewrite clip_fin. apply np_log_fin.
  pose proof (Rmax_r r 1). lra.
Qed.

Lemma ln_ge_1 (r : R) : (1 <= r)%R -> (0 <= ln r)%R.
Proof.
  intros H. destruct H as [H | H].
  - left. rewrite <- ln_1. apply ln_increasing; lra.
  - subst r. rewrite ln_1. lra.
Qed.

(** ** Construction of [ODEDataset] *)

(** C4.  When the frame read from the CSV file has the six pre columns
    after its first column, [ODEDataset.__init__] succeeds and stores, for
    every remaining column, the clipped values (a value below 1 becomes 1)
    and, for exactly the six pre columns, the natural logarithm of the
    clipped values; the six post columns are not among those. *)
Theorem ODEDataset_init_clip_then_log (csv raw : DataFrame) :
  drop_first_column csv = Some raw ->
  (forall l, In l x_cols -> In l (labels raw)) ->
  (exists ds,
      ODEDataset.init csv = Some ds /\
      nrows (ODEDataset.data ds) = nrows raw /\
      columns (ODEDataset.data ds) =
        map (fun c =>
               (fst c,
                map (fun v => if mem_label (fst c) x_cols
                              then np_log (clip v) else clip v) (snd c)))
            (columns raw)) /\
  (forall r : R,
      ((r < 1)%R -> clip (Fin r) = Fin 1) /\
      ((1 <= r)%R -> clip (Fin r) = Fin r) /\
      np_log (clip (Fin r)) = Fin (ln (Rmax r 1))) /\
  Forall (fun l => mem_label l x_cols = false) y_cols.
Proof.
  intros Hdrop Hx. split; [| split].
  - rewrite ODEDataset_init_eq, Hdrop. cbn [bind]. unfold log_x_cols.
    apply has_labels_forallb in Hx. rewrite Hx. cbn [bind].
    eexists; split; [reflexivity |]. split; reflexivity.
  - intros r. split; [apply clip_below | split; [apply clip_above | apply log_clip_fin]].
  - repeat constructor.
Qed.

(** ** [ODEDatasetClassifier]: construction and [__getitem__] *)

Lemma bind_some {A B : Type} (m : option A) (k : A -> option B) (b : B) :
  (x <- m ;; k x) = Some b -> exists a, m = Some a /\ k a = Some b.
Proof.
  destruct m as [a |]; simpl; intros H; [exists a; auto | discriminate].
Qed.

Lemma Classifier_init_inv (csv : DataFrame) (atr : Z) (ds : ODEDatasetClassifier.t) :
  ODEDatasetClassifier.init csv atr = Some ds ->
  exists raw logged ys,
    drop_first_column csv = Some raw /\
    log_x_cols raw = Some logged /\
    list_pop y_cols atr = Some ys /\
    drop_columns ys logged = Some (ODEDatasetClassifier.data ds) /\
    frame_max_at 6 (ODEDatasetClassifier.data ds) = Some (ODEDatasetClassifier.y_max ds) /\
    frame_min_at 6 (ODEDatasetClassifier.data ds) = Some (ODEDatasetClassifier.y_min ds) /\
    ODEDatasetClassifier.atr ds = atr.
Proof.
  rewrite Classifier_init_eq. intros H.
  apply bind_some in H as [raw [Hraw H]].
  apply bind_some in H as [logged [Hlog H]].
  apply bind_some in H as [ys [Hys H]].
  apply bind_some in H as [data [Hdata H]].
  apply bind_some in H as [hi [Hhi H]].
  apply bind_some in H as [lo [Hlo H]].
  injection H as <-. simpl.
  exists raw, logged, ys. repeat split; assumption.
Qed.

Lemma py_index_valid (n : nat) (idx : Z) :
  - Z.of_nat n <= idx < Z.of_nat n ->
  exists i, py_index n idx = Some i /\ (i < n)%nat.
Proof.
  intros H. unfold py_index.
  destruct (0 <=? idx) eqn:E0; simpl.
  - apply Z.leb_le in E0.
    destruct (idx <? Z.of_nat n) eqn:E1; [| apply Z.ltb_ge in E1; lia].
    exists (Z.to_nat idx). split; [reflexivity | lia].
  - apply Z.leb_gt in E0.
    destruct (- Z.of_nat n <=? idx) eqn:E1; [| apply Z.leb_gt in E1; lia].
    destruct (idx <? 0) eqn:E2; [| apply Z.ltb_ge in E2; lia].
    simpl. exists (Z.to_nat (idx + Z.of_nat n)). split; [reflexivity | lia].
Qed.

Lemma py_index_bound (n : nat) (idx : Z) (i : nat) :
  py_index n idx = Some i -> (i < n)%nat.
Proof.
  unfold py_index.
  destruct (0 <=? idx) eqn:E0; destruct (idx <? Z.of_nat n) eqn:E1; simpl;
    try (intros H; injection H as <-; apply Z.leb_le in E0; apply Z.ltb_lt in E1; lia).
  all: destruct (- Z.of_nat n <=? idx) eqn:E2; destruct (idx <? 0) eqn:E3; simpl;
    try discriminate.
  all: intros H; injection H as <-; apply Z.leb_le in E2; apply Z.ltb_lt in E3; lia.
Qed.

(** The label tensor written by [__getitem__] for a class in range. *)
Lemma tensor_set_one_hot (k : Z) :
  In k [0; 1; 2; 3] ->
  exists label,
    tensor_set (repeat zero 4) k one = Some label /\
    List.length label = 4%nat /\
    forall i : nat, (i < 4)%nat ->
      nth i label NaN = if Z.of_nat i =? k then one else zero.
Proof.
  intros Hk. simpl in Hk.
  destruct Hk as [E | [E | [E | [E | []]]]]; subst k;
    (eexists; split; [reflexivity | split; [reflexivity |]]);
    intros i Hi;
    destruct i as [| [| [| [| i]]]]; try reflexivity; lia.
Qed.

(** C5.  For a dataset built by [ODEDatasetClassifier.__init__] and every
    valid index, [__getitem__] returns a label of length 4 that is the
    one-hot encoding of [bracket(y)], where [y] is entry 6 of the selected
    row: entry [bracket(y)] is 1 and the other three are 0. *)
Theorem getitem_one_hot (csv : DataFrame) (atr : Z) (ds : ODEDatasetClassifier.t)
    (idx : Z) :
  ODEDatasetClassifier.init csv atr = Some ds ->
  - Z.of_nat (ODEDatasetClassifier.len ds) <= idx < Z.of_nat (ODEDatasetClassifier.len ds) ->
  exists row y x label,
    iloc (ODEDatasetClassifier.data ds) idx = Some row /\
    nth_error row 6 = Some y /\
    ODEDatasetClassifier.getitem ds idx = Some (x, label) /\
    List.length label = 4%nat /\
    In (ODEDatasetClassifier.bracket ds y) [0; 1; 2; 3] /\
    forall i : nat, (i < 4)%nat ->
      nth i label NaN =
      if Z.of_nat i =? ODEDatasetClassifier.bracket ds y then one else zero.
Proof.
  intros Hinit Hidx.
  apply Classifier_init_inv in Hinit
    as (raw & logged & ys & _ & _ & _ & _ & Hmax & _ & _).
  unfold frame_max_at in Hmax. apply bind_some in Hmax as [c [Hc _]].
  destruct (py_index_valid _ _ Hidx) as [i [Hi _]].
  unfold ODEDatasetClassifier.len in Hi.
  set (row := map (fun c => nth i (snd c) NaN) (columns (ODEDatasetClassifier.data ds))).
  assert (Hrow : iloc (ODEDatasetClassifier.data ds) idx = Some row).
  { unfold iloc. rewrite Hi. reflexivity. }
  assert (Hy : nth_error row 6 = Some (nth i (snd c) NaN)).
  { unfold row. exact (map_nth_error (fun c => nth i (snd c) NaN) 6 _ Hc). }
  pose proof (dataset_bracket_body ds (nth i (snd c) NaN)) as Hb.
  assert (Hrange : In (ODEDatasetClassifier.bracket ds (nth i (snd c) NaN)) [0; 1; 2; 3]).
  { rewrite Hb. apply bracket_body_range. }
  destruct (tensor_set_one_hot _ Hrange) as [label [Hset [Hlen Hnth]]].
  exists row, (nth i (snd c) NaN), (slice 0 6 row), label.
  split; [exact Hrow |]. split; [exact Hy |].
  split; [| split; [exact Hlen | split; [exact Hrange | exact Hnth]]].
  unfold ODEDatasetClassifier.getitem. rewrite Hrow. cbn [bind].
  rewrite Hy. cbn [bind]. rewrite Hset. reflexivity.
Qed.

(** ** Dropping the first column *)

Lemma filter_all {A : Type} (f : A -> bool) (l : list A) :
  Forall (fun a => f a = true) l -> filter f l = l.
Proof.
  induction 1 as [| a l Ha _ IH]; simpl; [reflexivity |].
  rewrite Ha, IH. reflexivity.
Qed.

Lemma filter_satisfies {A : Type} (f : A -> bool) (l : list A) :
  Forall (fun a => f a = true) (filter f l).
Proof.
  apply Forall_forall. intros a Ha. apply filter_In in Ha. tauto.
Qed.

Lemma drop_first_column_cons (n : nat) (c : column) (rest : list column) :
  drop_first_column (mkFrame n (c :: rest)) =
  Some (mkFrame n (filter (other_label (fst c)) rest)).
Proof.
  unfold drop_first_column, drop_columns, labels. cbn [columns map nrows forallb].
  unfold mem_label at 1. cbn [existsb]. rewrite String.eqb_refl. cbn [orb andb].
  cbn [filter]. unfold mem_label at 1. cbn [existsb]. rewrite String.eqb_refl.
  reflexivity.
Qed.

Lemma drop_first_column_nil (n : nat) : drop_first_column (mkFrame n []) = None.
Proof. reflexivity. Qed.

Lemma other_label_fresh (l : string) (cols : list column) :
  ~ In l (map fst cols) -> Forall (fun c => other_label l c = true) cols.
Proof.
  intros Hn. apply Forall_forall. intros c Hc. unfold other_label, mem_label.
  cbn [existsb]. rewrite orb_false_r.
  destruct (String.eqb_spec (fst c) l) as [E | _]; [| reflexivity].
  exfalso. apply Hn. rewrite <- E. apply in_map, Hc.
Qed.

(** With distinct labels the first column alone goes. *)
Lemma drop_first_column_fresh (n : nat) (c : column) (rest : list column) :
  ~ In (fst c) (map fst rest) ->
  drop_first_column (mkFrame n (c :: rest)) = Some (mkFrame n rest).
Proof.
  intros Hn. rewrite drop_first_column_cons.
  rewrite filter_all by (apply other_label_fresh; exact Hn). reflexivity.
Qed.

(** ** Noise *)

Lemma map_fst_mapi_from {A : Type} (k : nat) (f : nat -> string * A -> string * A)
    (l : list (string * A)) :
  (forall j c, fst (f j c) = fst c) ->
  map fst (mapi_from k f l) = map fst l.
Proof.
  intros Hf. revert k. induction l as [| c l IH]; intros k; simpl; [reflexivity |].
  rewrite Hf, IH. reflexivity.
Qed.

Lemma add_noise_shape (noise : nat -> nat -> R) (df noisy : DataFrame) :
  add_noise noise df = Some noisy ->
  List.length (columns df) = 12%nat /\
  nrows noisy = nrows df /\
  labels noisy = labels df.
Proof.
  unfold add_noise. destruct (Nat.eqb_spec (List.length (columns df)) 12) as [E | _];
    [| discriminate].
  intros H. injection H as <-. split; [exact E |]. split; [reflexivity |].
  unfold labels, mapi; simpl. apply map_fst_mapi_from. reflexivity.
Qed.

Lemma drop_first_with_index (noise : nat -> nat -> R) (csv raw noisy : DataFrame) :
  drop_first_column csv = Some raw ->
  add_noise noise raw = Some noisy ->
  drop_first_column (with_index_of csv noisy) = Some noisy.
Proof.
  destruct csv as [n [| c rest]]; [discriminate |].
  rewrite drop_first_column_cons. intros H; injection H as <-.
  intros Hnoise. destruct (add_noise_shape _ _ _ Hnoise) as (_ & _ & Hlabels).
  unfold with_index_of. cbn [columns firstn app].
  rewrite drop_first_column_cons. destruct noisy as [m cols]. cbn [nrows columns].
  f_equal. f_equal. apply filter_all.
  unfold labels in Hlabels; cbn [columns] in Hlabels.
  assert (H : Forall (fun l => negb (mem_label l [fst c]) = true) (map fst cols)).
  { rewrite Hlabels. apply Forall_map.
    apply (filter_satisfies (other_label (fst c)) rest). }
  apply Forall_map in H. exact H.
Qed.

(** C6.  [ODEDatasetClassifierNoisy.__init__] adds the noise to the raw
    frame (the CSV frame without its first column) and then does what
    [ODEDatasetClassifier.__init__] does: its result, attribute by
    attribute, is that of the non-noisy constructor on the frame
    [raw + noise], and it raises when that one does.  The noise is added
    to every raw frame of 12 columns, entry [noise i j] to row [i] of
    column [j], labels and number of rows kept; on any other number of
    columns the addition raises.  On a data file in the standard layout
    the constructor succeeds for every [atr] from 0 to 5, and every value
    it stores is the clipped sum of the raw value and its noise entry,
    under a logarithm in the six pre columns; the thresholds are the
    largest and the smallest of the stored values of the selected post
    column. *)
Theorem noisy_init_is_init_after_noise (noise : nat -> nat -> R) (csv : DataFrame)
    (atr : Z) :
  option_map as_classifier (ODEDatasetClassifierNoisy.init noise csv atr) =
    (raw <- drop_first_column csv ;;
     noisy <- add_noise noise raw ;;
     ODEDatasetClassifier.init (with_index_of csv noisy) atr) /\
  (forall raw, List.length (columns raw) = 12%nat ->
     add_noise noise raw =
     Some (mkFrame (nrows raw)
             (mapi (fun j c =>
                      (fst c, mapi (fun i v => (v + Fin (noise i j))%num) (snd c)))
                   (columns raw)))) /\
  (forall raw, List.length (columns raw) <> 12%nat -> add_noise noise raw = None) /\
  (forall (n : nat) (c0 : column)
          (xT xP xI xV xE xM yT yP yI yV yE yM : list num),
     csv = standard_csv n c0 xT xP xI xV xE xM yT yP yI yV yE yM ->
     ~ In (fst c0) (x_cols ++ y_cols)%list ->
     0 <= atr < 6 ->
     let plus (j : nat) (vs : list num) :=
       mapi (fun i v => (v + Fin (noise i j))%num) vs in
     let selected :=
       map clip (plus (6 + Z.to_nat atr)%nat
                      (nth (Z.to_nat atr) [yT; yP; yI; yV; yE; yM] [])) in
     ODEDatasetClassifierNoisy.init noise csv atr =
     Some (ODEDatasetClassifierNoisy.mk atr (series_max selected) (series_min selected)
             (mkFrame n
                [ ("xTarget", map (fun v => np_log (clip v)) (plus 0%nat xT));
                  ("xPre-Infected", map (fun v => np_log (clip v)) (plus 1%nat xP));
                  ("xInfected", map (fun v => np_log (clip v)) (plus 2%nat xI));
                  ("xVirus", map (fun v => np_log (clip v)) (plus 3%nat xV));
                  ("xCDE8e", map (fun v => np_log (clip v)) (plus 4%nat xE));
                  ("xCD8m", map (fun v => np_log (clip v)) (plus 5%nat xM));
                  (nth (Z.to_nat atr) y_cols "", selected) ]))).
Proof.
  split; [| split; [| split]].
  - rewrite Noisy_init_eq.
    destruct (drop_first_column csv) as [raw |] eqn:Hraw; [| reflexivity].
    cbn [bind]. destruct (add_noise noise raw) as [noisy |] eqn:Hnoisy; [| reflexivity].
    cbn [bind]. rewrite Classifier_init_eq.
    rewrite (drop_first_with_index noise csv raw noisy Hraw Hnoisy). cbn [bind].
    destruct (log_x_cols noisy) as [logged |]; [| reflexivity]. cbn [bind].
    destruct (list_pop y_cols atr) as [ys |]; [| reflexivity]. cbn [bind].
    destruct (drop_columns ys logged) as [data |]; [| reflexivity]. cbn [bind].
    destruct (frame_max_at 6 data) as [hi |]; [| reflexivity]. cbn [bind].
    destruct (frame_min_at 6 data) as [lo |]; reflexivity.
  - intros raw Hlen. unfold add_noise. rewrite Hlen. reflexivity.
  - intros raw Hlen. unfold add_noise.
    destruct (Nat.eqb_spec (List.length (columns raw)) 12) as [E | _];
      [contradiction | reflexivity].
  - intros n c0 xT xP xI xV xE xM yT yP yI yV yE yM -> Hfresh Hatr plus selected.
    rewrite Noisy_init_eq. unfold standard_csv.
    rewrite drop_first_column_fresh by exact Hfresh. cbn [bind].
    subst selected plus.
    assert (atr = 0 \/ atr = 1 \/ atr = 2 \/ atr = 3 \/ atr = 4 \/ atr = 5)
      as [E | [E | [E | [E | [E | E]]]]] by lia;
      subst atr; reflexivity.
Qed.

(** ** The first column of the CSV frame *)

(** C8.  The first column of the CSV frame never reaches a dataset: two
    frames with the same number of rows that differ only in their first
    column (labels distinct, as [read_csv] gives them) yield the same
    [ODEDataset], [ODEDatasetClassifier] and [ODEDatasetClassifierNoisy]
    (under the same noise), hence equal features, labels, [y_min], [y_max]
    and [__getitem__] results. *)
Theorem first_column_irrelevant (noise : nat -> nat -> R) (n : nat) (c1 c2 : column)
    (rest : list column) (atr : Z) :
  ~ In (fst c1) (map fst rest) ->
  ~ In (fst c2) (map fst rest) ->
  let csv1 := mkFrame n (c1 :: rest) in
  let csv2 := mkFrame n (c2 :: rest) in
  ODEDataset.init csv1 = ODEDataset.init csv2 /\
  ODEDatasetClassifier.init csv1 atr = ODEDatasetClassifier.init csv2 atr /\
  ODEDatasetClassifierNoisy.init noise csv1 atr =
    ODEDatasetClassifierNoisy.init noise csv2 atr /\
  (forall d1 d2 idx,
      ODEDataset.init csv1 = Some d1 -> ODEDataset.init csv2 = Some d2 ->
      ODEDataset.getitem d1 idx = ODEDataset.getitem d2 idx) /\
  (forall d1 d2 idx,
      ODEDatasetClassifier.init csv1 atr = Some d1 ->
      ODEDatasetClassifier.init csv2 atr = Some d2 ->
      ODEDatasetClassifier.y_min d1 = ODEDatasetClassifier.y_min d2 /\
      ODEDatasetClassifier.y_max d1 = ODEDatasetClassifier.y_max d2 /\
      ODEDatasetClassifier.getitem d1 idx = ODEDatasetClassifier.getitem d2 idx) /\
  (forall d1 d2 idx,
      ODEDatasetClassifierNoisy.init noise csv1 atr = Some d1 ->
      ODEDatasetClassifierNoisy.init noise csv2 atr = Some d2 ->
      ODEDatasetClassifierNoisy.y_min d1 = ODEDatasetClassifierNoisy.y_min d2 /\
      ODEDatasetClassifierNoisy.y_max d1 = ODEDatasetClassifierNoisy.y_max d2 /\
      ODEDatasetClassifierNoisy.getitem d1 idx = ODEDatasetClassifierNoisy.getitem d2 idx).
Proof.
  intros H1 H2 csv1 csv2.
  assert (E0 : ODEDataset.init csv1 = ODEDataset.init csv2).
  { unfold ODEDataset.init, csv1, csv2.
    rewrite !drop_first_column_fresh by assumption. reflexivity. }
  assert (E1 : ODEDatasetClassifier.init csv1 atr = ODEDatasetClassifier.init csv2 atr).
  { unfold ODEDatasetClassifier.init, csv1, csv2.
    rewrite !drop_first_column_fresh by assumption. reflexivity. }
  assert (E2 : ODEDatasetClassifierNoisy.init noise csv1 atr =
               ODEDatasetClassifierNoisy.init noise csv2 atr).
  { unfold ODEDatasetClassifierNoisy.init, csv1, csv2.
    rewrite !drop_first_column_fresh by assumption. reflexivity. }
  repeat split; try assumption; intros;
    match goal with
    | Ha : ?i = Some ?a, Hb : ?j = Some ?b |- _ =>
        assert (a = b) by congruence; subst; reflexivity
    end.
Qed.

(** ** Finite inputs give finite stored values *)

Lemma clip_finite (v : num) :
  is_fin v -> exists r : R, clip v = Fin r /\ (1 <= r)%R.
Proof.
  intros [r ->]. rewrite clip_fin. exists (Rmax r 1). split; [reflexivity |].
  apply Rmax_r.
Qed.

Lemma pre_transform_ok (n : string) (v : num) :
  is_fin v -> value_ok n (pre_transform n v).
Proof.
  intros Hv. unfold value_ok, pre_transform.
  destruct (clip_finite v Hv) as [r [E Hr]]. rewrite E.
  destruct (mem_label n x_cols).
  - exists (ln r). split; [apply np_log_fin; lra | apply ln_ge_1; exact Hr].
  - exists r. split; [reflexivity | exact Hr].
Qed.

Lemma value_ok_fin (n : string) (v : num) : value_ok n v -> is_fin v.
Proof. intros [r [E _]]. exists r. exact E. Qed.

Lemma Forall_filter_keep {A : Type} (P : A -> Prop) (f : A -> bool) (l : list A) :
  Forall P l -> Forall P (filter f l).
Proof.
  intros H. apply Forall_forall. intros a Ha. apply filter_In in Ha as [Ha _].
  rewrite Forall_forall in H. apply H, Ha.
Qed.

Lemma Forall_mapi_from {A B : Type} (P : A -> Prop) (Q : B -> Prop)
    (f : nat -> A -> B) (k : nat) (l : list A) :
  (forall j a, P a -> Q (f j a)) -> Forall P l -> Forall Q (mapi_from k f l).
Proof.
  intros Hf H. revert k. induction H as [| a l Ha _ IH]; intros k; simpl;
    constructor; [apply Hf, Ha | apply IH].
Qed.

Lemma length_mapi_from {A B : Type} (f : nat -> A -> B) (k : nat) (l : list A) :
  List.length (mapi_from k f l) = List.length l.
Proof.
  revert k. induction l as [| a l IH]; intros k; simpl; [reflexivity |].
  rewrite IH. reflexivity.
Qed.

Lemma Forall_firstn {A : Type} (P : A -> Prop) (n : nat) (l : list A) :
  Forall P l -> Forall P (firstn n l).
Proof.
  intros H. revert n. induction H as [| a l Ha _ IH]; intros [| n]; simpl;
    constructor; [exact Ha | apply IH].
Qed.

Lemma Forall_skipn {A : Type} (P : A -> Prop) (n : nat) (l : list A) :
  Forall P l -> Forall P (skipn n l).
Proof.
  intros H. revert n. induction H as [| a l Ha Hl IH]; intros [| n]; simpl;
    try constructor; try assumption. apply IH.
Qed.

Lemma Forall_slice {A : Type} (P : A -> Prop) (a b : nat) (l : list A) :
  Forall P l -> Forall P (slice a b l).
Proof. intros H. apply Forall_firstn, Forall_skipn, H. Qed.

Lemma Forall_set_nth {A : Type} (P : A -> Prop) (i : nat) (v : A) (l : list A) :
  P v -> Forall P l -> Forall P (set_nth i v l).
Proof.
  intros Hv H. revert i. induction H as [| a l Ha Hl IH]; intros [| i]; simpl;
    constructor; try assumption. apply IH.
Qed.

(** *** Through the steps of the constructors *)

Lemma drop_columns_keeps (P : column -> Prop) (ys : list string) (df d : DataFrame) :
  Forall P (columns df) -> drop_columns ys df = Some d ->
  Forall P (columns d) /\ nrows d = nrows df.
Proof.
  intros H. unfold drop_columns.
  destruct (forallb _ ys); [| discriminate].
  intros E; injection E as <-. split; [apply Forall_filter_keep, H | reflexivity].
Qed.

Lemma drop_first_column_keeps (P : column -> Prop) (csv raw : DataFrame) :
  Forall P (columns csv) -> drop_first_column csv = Some raw ->
  Forall P (columns raw) /\ nrows raw = nrows csv.
Proof.
  intros H. unfold drop_first_column. destruct (labels csv); [discriminate |].
  apply drop_columns_keeps, H.
Qed.

Lemma add_noise_finite (noise : nat -> nat -> R) (raw noisy : DataFrame) :
  all_finite raw -> add_noise noise raw = Some noisy -> all_finite noisy.
Proof.
  unfold all_finite, add_noise. intros H.
  destruct (Nat.eqb _ 12); [| discriminate]. intros E; injection E as <-. simpl.
  unfold mapi. apply (Forall_mapi_from (fun c : column => Forall is_fin (snd c))); [| exact H].
  intros j c Hc. simpl.
  apply (Forall_mapi_from is_fin); [| exact Hc].
  intros i v [r ->]. eexists; reflexivity.
Qed.

Lemma add_noise_rectangular (noise : nat -> nat -> R) (raw noisy : DataFrame) :
  rectangular raw -> add_noise noise raw = Some noisy -> rectangular noisy.
Proof.
  unfold rectangular, add_noise. intros H.
  destruct (Nat.eqb _ 12); [| discriminate]. intros E; injection E as <-. simpl.
  unfold mapi.
  apply (Forall_mapi_from (fun c : column => List.length (snd c) = nrows raw)); [| exact H].
  intros j c Hc. simpl. rewrite length_mapi_from. exact Hc.
Qed.

Lemma mask_clipped (raw : DataFrame) : all_finite raw -> clipped_ok (mask_lt1 raw).
Proof.
  unfold all_finite, clipped_ok, mask_lt1, map_values; simpl. intros H.
  apply Forall_map. eapply Forall_impl; [| exact H].
  intros c Hc; simpl. apply Forall_map. eapply Forall_impl; [| exact Hc].
  intros v Hv. apply clip_finite, Hv.
Qed.

Lemma log_x_cols_ok (df logged : DataFrame) :
  all_finite df -> log_x_cols df = Some logged -> stored_ok logged.
Proof.
  unfold log_x_cols. destruct (forallb _ x_cols); [| discriminate].
  intros H E; injection E as <-.
  unfold stored_ok, all_finite, map_values in *; simpl.
  apply Forall_map. eapply Forall_impl; [| exact H].
  intros c Hc; simpl. apply Forall_map. eapply Forall_impl; [| exact Hc].
  intros v Hv. apply pre_transform_ok, Hv.
Qed.

Lemma log_x_cols_rectangular (df logged : DataFrame) :
  rectangular df -> log_x_cols df = Some logged -> rectangular logged.
Proof.
  unfold log_x_cols. destruct (forallb _ x_cols); [| discriminate].
  intros H E; injection E as <-.
  unfold rectangular, map_values in *; simpl.
  apply Forall_map. eapply Forall_impl; [| exact H].
  intros c Hc; simpl. rewrite length_map. exact Hc.
Qed.

Lemma drop_columns_rectangular (ys : list string) (df d : DataFrame) :
  rectangular df -> drop_columns ys df = Some d -> rectangular d.
Proof.
  unfold rectangular. intros H E.
  destruct (drop_columns_keeps _ ys df d H E) as [Hc Hn]. rewrite Hn. exact Hc.
Qed.

Lemma drop_first_column_rectangular (csv raw : DataFrame) :
  rectangular csv -> drop_first_column csv = Some raw -> rectangular raw.
Proof.
  unfold rectangular. intros H E.
  destruct (drop_first_column_keeps _ csv raw H E) as [Hc Hn]. rewrite Hn. exact Hc.
Qed.

(** A row of a rectangular frame holds stored values. *)
Lemma iloc_finite (df : DataFrame) (idx : Z) (row : list num) :
  rectangular df -> stored_ok df -> iloc df idx = Some row -> Forall is_fin row.
Proof.
  unfold rectangular, stored_ok, iloc. intros Hrect Hok H.
  apply bind_some in H as [i [Hi E]]. injection E as <-.
  apply py_index_bound in Hi.
  apply Forall_map. rewrite Forall_forall in *. intros c Hc.
  specialize (Hrect c Hc). specialize (Hok c Hc).
  apply (value_ok_fin (fst c)).
  rewrite Forall_forall in Hok. apply Hok. apply nth_In. lia.
Qed.

Lemma ODEDataset_init_inv (csv : DataFrame) (ds : ODEDataset.t) :
  ODEDataset.init csv = Some ds ->
  exists raw,
    drop_first_column csv = Some raw /\
    log_x_cols raw = Some (ODEDataset.data ds).
Proof.
  rewrite ODEDataset_init_eq. intros H.
  apply bind_some in H as [raw [Hraw H]].
  apply bind_some in H as [logged [Hlog H]].
  injection H as <-. exists raw. split; assumption.
Qed.

Lemma Noisy_init_inv (noise : nat -> nat -> R) (csv : DataFrame) (atr : Z)
    (ds : ODEDatasetClassifierNoisy.t) :
  ODEDatasetClassifierNoisy.init noise csv atr = Some ds ->
  exists raw noisy logged ys,
    drop_first_column csv = Some raw /\
    add_noise noise raw = Some noisy /\
    log_x_cols noisy = Some logged /\
    list_pop y_cols atr = Some ys /\
    drop_columns ys logged = Some (ODEDatasetClassifierNoisy.data ds) /\
    frame_max_at 6 (ODEDatasetClassifierNoisy.data ds)
      = Some (ODEDatasetClassifierNoisy.y_max ds) /\
    frame_min_at 6 (ODEDatasetClassifierNoisy.data ds)
      = Some (ODEDatasetClassifierNoisy.y_min ds) /\
    ODEDatasetClassifierNoisy.atr ds = atr.
Proof.
  rewrite Noisy_init_eq. intros H.
  apply bind_some in H as [raw [Hraw H]].
  apply bind_some in H as [noisy [Hnoisy H]].
  apply bind_some in H as [logged [Hlog H]].
  apply bind_some in H as [ys [Hys H]].
  apply bind_some in H as [data [Hdata H]].
  apply bind_some in H as [hi [Hhi H]].
  apply bind_some in H as [lo [Hlo H]].
  injection H as <-. simpl.
  exists raw, noisy, logged, ys. repeat split; assumption.
Qed.

Lemma one_hot_finite (k : Z) (label : list num) :
  tensor_set (repeat zero 4) k one = Some label -> Forall is_fin label.
Proof.
  unfold tensor_set. intros H. apply bind_some in H as [i [_ E]]. injection E as <-.
  apply Forall_set_nth; [exists 1%R; reflexivity |].
  repeat constructor; exists 0%R; reflexivity.
Qed.

Lemma ODEDataset_getitem_finite (ds : ODEDataset.t) (idx : Z) (x y : list num) :
  rectangular (ODEDataset.data ds) -> stored_ok (ODEDataset.data ds) ->
  ODEDataset.getitem ds idx = Some (x, y) -> Forall is_fin x /\ Forall is_fin y.
Proof.
  intros Hrect Hok H. unfold ODEDataset.getitem in H.
  apply bind_some in H as [row [Hrow E]]. injection E as <- <-.
  pose proof (iloc_finite _ _ _ Hrect Hok Hrow) as Hfin.
  split; apply Forall_slice, Hfin.
Qed.

Lemma Classifier_getitem_finite (ds : ODEDatasetClassifier.t) (idx : Z)
    (x y : list num) :
  rectangular (ODEDatasetClassifier.data ds) -> stored_ok (ODEDatasetClassifier.data ds) ->
  ODEDatasetClassifier.getitem ds idx = Some (x, y) -> Forall is_fin x /\ Forall is_fin y.
Proof.
  intros Hrect Hok H. unfold ODEDatasetClassifier.getitem in H.
  apply bind_some in H as [row [Hrow H]].
  apply bind_some in H as [v [_ H]].
  apply bind_some in H as [label [Hlabel E]]. injection E as <- <-.
  split; [apply Forall_slice, (iloc_finite _ _ _ Hrect Hok Hrow) |].
  apply (one_hot_finite _ _ Hlabel).
Qed.

Lemma Noisy_getitem_finite (ds : ODEDatasetClassifierNoisy.t) (idx : Z)
    (x y : list num) :
  rectangular (ODEDatasetClassifierNoisy.data ds) ->
  stored_ok (ODEDatasetClassifierNoisy.data ds) ->
  ODEDatasetClassifierNoisy.getitem ds idx = Some (x, y) ->
  Forall is_fin x /\ Forall is_fin y.
Proof.
  intros Hrect Hok H. unfold ODEDatasetClassifierNoisy.getitem in H.
  apply bind_some in H as [row [Hrow H]].
  apply bind_some in H as [v [_ H]].
  apply bind_some in H as [label [Hlabel E]]. injection E as <- <-.
  split; [apply Forall_slice, (iloc_finite _ _ _ Hrect Hok Hrow) |].
  apply (one_hot_finite _ _ Hlabel).
Qed.

(** C7.  When every value of the (rectangular) CSV frame is finite, each
    of the three constructors leaves only finite values in the dataset:
    before the logarithms every value is at least 1, and in the stored
    frame the values of the pre columns (logarithms) are at least 0 and
    all other values at least 1.  [__getitem__] is a function of the
    dataset, which it leaves as it is, and what it returns is finite. *)
Theorem stored_values_finite (noise : nat -> nat -> R) (csv : DataFrame) (atr : Z) :
  all_finite csv ->
  rectangular csv ->
  (forall raw, drop_first_column csv = Some raw ->
     clipped_ok (mask_lt1 raw) /\
     forall noisy, add_noise noise raw = Some noisy -> clipped_ok (mask_lt1 noisy)) /\
  (forall ds, ODEDataset.init csv = Some ds ->
     stored_ok (ODEDataset.data ds) /\
     forall idx x y, ODEDataset.getitem ds idx = Some (x, y) ->
       Forall is_fin x /\ Forall is_fin y) /\
  (forall ds, ODEDatasetClassifier.init csv atr = Some ds ->
     stored_ok (ODEDatasetClassifier.data ds) /\
     forall idx x y, ODEDatasetClassifier.getitem ds idx = Some (x, y) ->
       Forall is_fin x /\ Forall is_fin y) /\
  (forall ds, ODEDatasetClassifierNoisy.init noise csv atr = Some ds ->
     stored_ok (ODEDatasetClassifierNoisy.data ds) /\
     forall idx x y, ODEDatasetClassifierNoisy.getitem ds idx = Some (x, y) ->
       Forall is_fin x /\ Forall is_fin y).
Proof.
  intros Hfin Hrect. split; [| split; [| split]].
  - intros raw Hraw.
    destruct (drop_first_column_keeps _ csv raw Hfin Hraw) as [Hfin' _].
    split; [apply mask_clipped, Hfin' |].
    intros noisy Hnoisy. apply mask_clipped.
    apply (add_noise_finite noise raw noisy Hfin' Hnoisy).
  - intros ds Hinit. apply ODEDataset_init_inv in Hinit as (raw & Hraw & Hlog).
    destruct (drop_first_column_keeps _ csv raw Hfin Hraw) as [Hfin' _].
    pose proof (drop_first_column_rectangular csv raw Hrect Hraw) as Hrect'.
    pose proof (log_x_cols_ok raw _ Hfin' Hlog) as Hok.
    pose proof (log_x_cols_rectangular raw _ Hrect' Hlog) as Hrect''.
    split; [exact Hok |]. intros idx x y. apply ODEDataset_getitem_finite; assumption.
  - intros ds Hinit.
    apply Classifier_init_inv in Hinit
      as (raw & logged & ys & Hraw & Hlog & _ & Hdrop & _).
    destruct (drop_first_column_keeps _ csv raw Hfin Hraw) as [Hfin' _].
    pose proof (drop_first_column_rectangular csv raw Hrect Hraw) as Hrect'.
    pose proof (log_x_cols_ok raw _ Hfin' Hlog) as Hok.
    pose proof (log_x_cols_rectangular raw _ Hrect' Hlog) as Hrect''.
    destruct (drop_columns_keeps _ ys logged _ Hok Hdrop) as [Hok' _].
    pose proof (drop_columns_rectangular ys logged _ Hrect'' Hdrop) as Hrect3.
    split; [exact Hok' |]. intros idx x y. apply Classifier_getitem_finite; assumption.
  - intros ds Hinit.
    apply Noisy_init_inv in Hinit
      as (raw & noisy & logged & ys & Hraw & Hnoisy & Hlog & _ & Hdrop & _).
    destruct (drop_first_column_keeps _ csv raw Hfin Hraw) as [Hfin' _].
    pose proof (drop_first_column_rectangular csv raw Hrect Hraw) as Hrect'.
    pose proof (add_noise_finite noise raw noisy Hfin' Hnoisy) as Hfin''.
    pose proof (add_noise_rectangular noise raw noisy Hrect' Hnoisy) as Hrect''.
    pose proof (log_x_cols_ok noisy _ Hfin'' Hlog) as Hok.
    pose proof (log_x_cols_rectangular noisy _ Hrect'' Hlog) as Hrect3.
    destruct (drop_columns_keeps _ ys logged _ Hok Hdrop) as [Hok' _].
    pose proof (drop_columns_rectangular ys logged _ Hrect3 Hdrop) as Hrect4.
    split; [exact Hok' |]. intros idx x y. apply Noisy_getitem_finite; assumption.
Qed.

(** ** The thresholds a constructor computes *)

Lemma fold_max_fin (vs : list num) (a : R) :
  Forall is_fin vs ->
  exists hi : R,
    fold_left max_step vs (Fin a) = Fin hi /\ (a <= hi)%R /\
    Forall (fun v => exists r : R, v = Fin r /\ (r <= hi)%R) vs.
Proof.
  intros H. revert a. induction H as [| v vs [b ->] _ IH]; intros a; simpl.
  - exists a. split; [reflexivity |]. split; [lra | constructor].
  - destruct (IH (Rmax a b)) as (hi & E & Hle & Hall).
    exists hi. split; [exact E |].
    pose proof (Rmax_l a b). pose proof (Rmax_r a b).
    split; [lra |]. constructor; [| exact Hall].
    exists b. split; [reflexivity | lra].
Qed.

Lemma fold_min_fin (vs : list num) (a : R) :
  Forall is_fin vs ->
  exists lo : R,
    fold_left min_step vs (Fin a) = Fin lo /\ (lo <= a)%R /\
    Forall (fun v => exists r : R, v = Fin r /\ (lo <= r)%R) vs.
Proof.
  intros H. revert a. induction H as [| v vs [b ->] _ IH]; intros a; simpl.
  - exists a. split; [reflexivity |]. split; [lra | constructor].
  - destruct (IH (Rmin a b)) as (lo & E & Hle & Hall).
    exists lo. split; [exact E |].
    pose proof (Rmin_l a b). pose proof (Rmin_r a b).
    split; [lra |]. constructor; [| exact Hall].
    exists b. split; [reflexivity | lra].
Qed.

(** Minimum and maximum of a non-empty column of finite values. *)
Lemma series_bounds (vs : list num) :
  vs <> [] -> Forall is_fin vs ->
  exists lo hi : R,
    series_min vs = Fin lo /\ series_max vs = Fin hi /\ (lo <= hi)%R /\
    Forall (fun v => exists r : R, v = Fin r /\ (lo <= r <= hi)%R) vs.
Proof.
  intros Hne H. destruct H as [| v vs [b ->] Hvs]; [contradiction |].
  unfold series_min, series_max. cbn [fold_left min_step max_step].
  destruct (fold_min_fin vs b Hvs) as (lo & Elo & Hlo & Alo).
  destruct (fold_max_fin vs b Hvs) as (hi & Ehi & Hhi & Ahi).
  exists lo, hi. split; [exact Elo |]. split; [exact Ehi |]. split; [lra |].
  constructor; [exists b; split; [reflexivity | lra] |].
  rewrite Forall_forall in *. intros v Hv.
  destruct (Alo v Hv) as [r [E Hr]]. destruct (Ahi v Hv) as [r' [E' Hr']].
  rewrite E in E'. injection E' as <-. exists r. split; [exact E | lra].
Qed.

(** On a finite, rectangular frame with at least one row the constructor
    stores ordered thresholds, and entry 6 of every row lies between
    them. *)
Lemma Classifier_thresholds_ordered (csv : DataFrame) (atr : Z)
    (ds : ODEDatasetClassifier.t) :
  all_finite csv -> rectangular csv -> (0 < nrows csv)%nat ->
  ODEDatasetClassifier.init csv atr = Some ds ->
  exists lo hi : R,
    ODEDatasetClassifier.y_min ds = Fin lo /\
    ODEDatasetClassifier.y_max ds = Fin hi /\
    (lo <= hi)%R /\
    forall idx row y,
      iloc (ODEDatasetClassifier.data ds) idx = Some row ->
      nth_error row 6 = Some y ->
      exists r : R, y = Fin r /\ (lo <= r <= hi)%R.
Proof.
  intros Hfin Hrect Hrows Hinit.
  apply Classifier_init_inv in Hinit
    as (raw & logged & ys & Hraw & Hlog & _ & Hdrop & Hmax & Hmin & _).
  destruct (drop_first_column_keeps _ csv raw Hfin Hraw) as [Hfin' Hn1].
  pose proof (drop_first_column_rectangular csv raw Hrect Hraw) as Hrect'.
  pose proof (log_x_cols_ok raw _ Hfin' Hlog) as Hok.
  pose proof (log_x_cols_rectangular raw _ Hrect' Hlog) as Hrect''.
  destruct (drop_columns_keeps _ ys logged _ Hok Hdrop) as [Hok' Hn3].
  pose proof (drop_columns_rectangular ys logged _ Hrect'' Hdrop) as Hrect3.
  assert (Hn2 : nrows logged = nrows raw).
  { unfold log_x_cols in Hlog. destruct (forallb _ x_cols); [| discriminate].
    injection Hlog as <-. reflexivity. }
  unfold frame_max_at in Hmax. apply bind_some in Hmax as [c [Hc Emax]].
  unfold frame_min_at in Hmin. apply bind_some in Hmin as [c' [Hc' Emin]].
  rewrite Hc in Hc'. injection Hc' as <-.
  injection Emax as Emax. injection Emin as Emin.
  pose proof (nth_error_In _ _ Hc) as Hin.
  unfold stored_ok, rectangular in *. rewrite Forall_forall in Hok', Hrect3.
  specialize (Hok' c Hin). specialize (Hrect3 c Hin).
  assert (Hcfin : Forall is_fin (snd c)).
  { eapply Forall_impl; [| exact Hok']. intros v. apply value_ok_fin. }
  assert (Hne : snd c <> []).
  { intros E. rewrite E in Hrect3. simpl in Hrect3. lia. }
  destruct (series_bounds (snd c) Hne Hcfin) as (lo & hi & Elo & Ehi & Hle & Hall).
  exists lo, hi. split; [congruence |]. split; [congruence |]. split; [exact Hle |].
  intros idx row y Hrow Hy. unfold iloc in Hrow.
  apply bind_some in Hrow as [i [Hi E]]. injection E as <-.
  apply py_index_bound in Hi.
  rewrite (map_nth_error (fun c => nth i (snd c) NaN) 6 _ Hc) in Hy.
  injection Hy as <-.
  rewrite Forall_forall in Hall. apply Hall. apply nth_In. lia.
Qed.

(** ** The layout of the data files

    With the pre columns followed by the post columns, as the positional
    reads [row[0:6]], [row[6:12]] and [row[6]] expect, the classifier
    dataset keeps the six pre columns and, in position 6, the clipped post
    column number [atr]. *)
Lemma Classifier_standard_layout (n : nat) (c0 : column)
    (xT xP xI xV xE xM yT yP yI yV yE yM : list num) (atr : Z) :
  ~ In (fst c0) (x_cols ++ y_cols)%list ->
  0 <= atr < 6 ->
  let csv :=
    mkFrame n
      [ c0;
        ("xTarget", xT); ("xPre-Infected", xP); ("xInfected", xI);
        ("xVirus", xV); ("xCDE8e", xE); ("xCD8m", xM);
        ("yTarget", yT); ("yPre-Infected", yP); ("yInfected", yI);
        ("yVirus", yV); ("yCDE8e", yE); ("yCD8m", yM) ] in
  exists ds,
    ODEDatasetClassifier.init csv atr = Some ds /\
    ODEDatasetClassifier.data ds =
      mkFrame n
        [ ("xTarget", map (fun v => np_log (clip v)) xT);
          ("xPre-Infected", map (fun v => np_log (clip v)) xP);
          ("xInfected", map (fun v => np_log (clip v)) xI);
          ("xVirus", map (fun v => np_log (clip v)) xV);
          ("xCDE8e", map (fun v => np_log (clip v)) xE);
          ("xCD8m", map (fun v => np_log (clip v)) xM);
          (nth (Z.to_nat atr) y_cols "",
           map clip (nth (Z.to_nat atr) [yT; yP; yI; yV; yE; yM] [])) ].
Proof.
  intros Hfresh Hatr csv.
  rewrite Classifier_init_eq. unfold csv.
  rewrite drop_first_column_fresh by exact Hfresh. cbn [bind].
  assert (atr = 0 \/ atr = 1 \/ atr = 2 \/ atr = 3 \/ atr = 4 \/ atr = 5)
    as [E | [E | [E | [E | [E | E]]]]] by lia;
    subst atr; eexists; split; reflexivity.
Qed.

(** In the same layout the noisy constructor succeeds too, on any noise,
    and keeps the same seven columns. *)
Lemma Noisy_standard_layout (noise : nat -> nat -> R) (n : nat) (c0 : column)
    (xT xP xI xV xE xM yT yP yI yV yE yM : list num) (atr : Z) :
  ~ In (fst c0) (x_cols ++ y_cols)%list ->
  0 <= atr < 6 ->
  let csv :=
    mkFrame n
      [ c0;
        ("xTarget", xT); ("xPre-Infected", xP); ("xInfected", xI);
        ("xVirus", xV); ("xCDE8e", xE); ("xCD8m", xM);
        ("yTarget", yT); ("yPre-Infected", yP); ("yInfected", yI);
        ("yVirus", yV); ("yCDE8e", yE); ("yCD8m", yM) ] in
  exists ds,
    ODEDatasetClassifierNoisy.init noise csv atr = Some ds /\
    nrows (ODEDatasetClassifierNoisy.data ds) = n /\
    labels (ODEDatasetClassifierNoisy.data ds) =
      (x_cols ++ [nth (Z.to_nat atr) y_cols ""])%list.
Proof.
  intros Hfresh Hatr csv.
  rewrite Noisy_init_eq. unfold csv.
  rewrite drop_first_column_fresh by exact Hfresh. cbn [bind].
  assert (atr = 0 \/ atr = 1 \/ atr = 2 \/ atr = 3 \/ atr = 4 \/ atr = 5)
    as [E | [E | [E | [E | [E | E]]]]] by lia;
    subst atr; eexists; (split; [reflexivity | split; reflexivity]).
Qed.

(** ** The sample file *)

Lemma sample_index_fresh (l : string) :
  In l ["Unnamed: 0"; "id"] -> ~ In l (map fst sample_rest).
Proof.
  intros Hl H. simpl in Hl. destruct Hl as [<- | [<- | []]]; simpl in H;
    repeat (destruct H as [H | H]; [discriminate H |]); exact H.
Qed.

Lemma sample_csv_finite : all_finite sample_csv.
Proof.
  unfold all_finite, sample_csv, sample_rest; simpl.
  repeat (apply Forall_cons || apply Forall_nil || (eexists; reflexivity)).
Qed.

Lemma sample_csv_rectangular : rectangular sample_csv.
Proof.
  unfold rectangular, sample_csv, sample_rest; simpl.
  repeat (apply Forall_cons || apply Forall_nil || reflexivity).
Qed.

(** The second record of the sample file: its post value 10 is the
    maximum of the selected column, so its label is the one-hot code of
    class 3. *)
Example sample_label :
  exists ds x,
    ODEDatasetClassifier.init sample_csv 3 = Some ds /\
    ODEDatasetClassifier.y_min ds = Fin 2 /\
    ODEDatasetClassifier.y_max ds = Fin 10 /\
    ODEDatasetClassifier.getitem ds 1 = Some (x, [zero; zero; zero; one]).
Proof.
  destruct (Classifier_standard_layout 2 ("Unnamed: 0", [Fin 0; Fin 1])
              [Fin 4; Fin 8] [Fin 0; Fin 2] [Fin 0; Fin 3] [Fin 5; Fin 6]
              [Fin 1; Fin 2] [Fin 1; Fin 1] [Fin 3; Fin 7] [Fin 1; Fin 2]
              [Fin 0; Fin 4] [Fin 2; Fin 10] [Fin 2; Fin 3] [Fin 1; Fin 1] 3)
    as [ds [Hinit Hdata]].
  { intros H. simpl in H.
    repeat (destruct H as [H | H]; [discriminate H |]). exact H. }
  { lia. }
  change (Z.to_nat 3) with 3%nat in Hdata.
  cbn [nth y_cols map] in Hdata.
  rewrite (clip_above 2), (clip_above 10) in Hdata by lra.
  pose proof Hinit as Hinv.
  apply Classifier_init_inv in Hinv as (_ & _ & _ & _ & _ & _ & _ & Hmax & Hmin & _).
  rewrite Hdata in Hmax, Hmin.
  cbn in Hmax, Hmin. injection Hmax as Hmax. injection Hmin as Hmin.
  rewrite Rmax_right in Hmax by lra. rewrite Rmin_left in Hmin by lra.
  exists ds. eexists. split; [exact Hinit |].
  split; [symmetry; exact Hmin |]. split; [symmetry; exact Hmax |].
  unfold ODEDatasetClassifier.getitem, iloc. rewrite Hdata.
  cbn [nrows columns].
  change (py_index 2 1) with (Some 1%nat).
  cbn [bind map snd nth nth_error].
  rewrite dataset_bracket_body, <- Hmin, <- Hmax, bracket_body_fin. cbv zeta.
  destruct (Rgt_dec 10 ((2 + 10) / 2)) as [_ | H]; [| exfalso; lra].
  destruct (Rgt_dec 10 (((2 + 10) / 2 + 10) / 2)) as [_ | H]; [| exfalso; lra].
  reflexivity.
Qed.

(** ** The theorems on the sample file *)

Lemma ODEDataset_init_clip_then_log_witness :
  drop_first_column sample_csv = Some sample_raw /\
  exists ds,
    ODEDataset.init sample_csv = Some ds /\
    nrows (ODEDataset.data ds) = 2%nat.
Proof.
  split; [reflexivity |].
  destruct (ODEDataset_init_clip_then_log sample_csv sample_raw)
    as [[ds [Hinit [Hrows _]]] _].
  - reflexivity.
  - apply has_labels_forallb. reflexivity.
  - exists ds. split; [exact Hinit | exact Hrows].
Defined.

Lemma getitem_one_hot_witness :
  exists ds row y x label,
    ODEDatasetClassifier.init sample_csv 3 = Some ds /\
    iloc (ODEDatasetClassifier.data ds) 1 = Some row /\
    nth_error row 6 = Some y /\
    ODEDatasetClassifier.getitem ds 1 = Some (x, label) /\
    List.length label = 4%nat.
Proof.
  assert (H : exists ds, ODEDatasetClassifier.init sample_csv 3 = Some ds /\
              - Z.of_nat (ODEDatasetClassifier.len ds) <= 1
                < Z.of_nat (ODEDatasetClassifier.len ds)).
  { eexists. split; [reflexivity | cbn; lia]. }
  destruct H as [ds [Hinit Hidx]].
  destruct (getitem_one_hot sample_csv 3 ds 1 Hinit Hidx)
    as (row & y & x & label & Hrow & Hy & Hget & Hlen & _).
  exists ds, row, y, x, label. repeat split; assumption.
Defined.

Lemma noisy_init_is_init_after_noise_witness :
  ODEDatasetClassifierNoisy.init sample_noise sample_csv 3 =
  Some (ODEDatasetClassifierNoisy.mk 3
          (series_max
             (map clip (mapi (fun i v => (v + Fin (sample_noise i 9))%num)
                             [Fin 2; Fin 10])))
          (series_min
             (map clip (mapi (fun i v => (v + Fin (sample_noise i 9))%num)
                             [Fin 2; Fin 10])))
          (mkFrame 2
             [ ("xTarget",
                map (fun v => np_log (clip v))
                    (mapi (fun i v => (v + Fin (sample_noise i 0))%num) [Fin 4; Fin 8]));
               ("xPre-Infected",
                map (fun v => np_log (clip v))
                    (mapi (fun i v => (v + Fin (sample_noise i 1))%num) [Fin 0; Fin 2]));
               ("xInfected",
                map (fun v => np_log (clip v))
                    (mapi (fun i v => (v + Fin (sample_noise i 2))%num) [Fin 0; Fin 3]));
               ("xVirus",
                map (fun v => np_log (clip v))
                    (mapi (fun i v => (v + Fin (sample_noise i 3))%num) [Fin 5; Fin 6]));
               ("xCDE8e",
                map (fun v => np_log (clip v))
                    (mapi (fun i v => (v + Fin (sample_noise i 4))%num) [Fin 1; Fin 2]));
               ("xCD8m",
                map (fun v => np_log (clip v))
                    (mapi (fun i v => (v + Fin (sample_noise i 5))%num) [Fin 1; Fin 1]));
               ("yVirus",
                map clip (mapi (fun i v => (v + Fin (sample_noise i 9))%num)
                               [Fin 2; Fin 10])) ])).
Proof.
  assert (Hfresh : ~ In "Unnamed: 0" (x_cols ++ y_cols)%list).
  { apply (sample_index_fresh "Unnamed: 0"). simpl; tauto. }
  exact (proj2 (proj2 (proj2
           (noisy_init_is_init_after_noise sample_noise sample_csv 3)))
           2%nat ("Unnamed: 0", [Fin 0; Fin 1])
           [Fin 4; Fin 8] [Fin 0; Fin 2] [Fin 0; Fin 3] [Fin 5; Fin 6]
           [Fin 1; Fin 2] [Fin 1; Fin 1] [Fin 3; Fin 7] [Fin 1; Fin 2]
           [Fin 0; Fin 4] [Fin 2; Fin 10] [Fin 2; Fin 3] [Fin 1; Fin 1]
           eq_refl Hfresh ltac:(lia)).
Defined.

Lemma stored_values_finite_witness :
  all_finite sample_csv /\ rectangular sample_csv /\
  exists ds,
    ODEDatasetClassifierNoisy.init sample_noise sample_csv 3 = Some ds /\
    stored_ok (ODEDatasetClassifierNoisy.data ds).
Proof.
  split; [exact sample_csv_finite |]. split; [exact sample_csv_rectangular |].
  assert (H : exists ds, ODEDatasetClassifierNoisy.init sample_noise sample_csv 3 = Some ds).
  { eexists. reflexivity. }
  destruct H as [ds Hinit]. exists ds. split; [exact Hinit |].
  exact (proj1 (proj2 (proj2 (proj2
    (stored_values_finite sample_noise sample_csv 3
       sample_csv_finite sample_csv_rectangular))) ds Hinit)).
Defined.

Lemma first_column_irrelevant_witness :
  ~ In "Unnamed: 0" (map fst sample_rest) /\
  ~ In "id" (map fst sample_rest) /\
  ODEDatasetClassifier.init sample_csv 3 =
    ODEDatasetClassifier.init sample_csv_renumbered 3.
Proof.
  assert (H1 : ~ In "Unnamed: 0" (map fst sample_rest)).
  { apply sample_index_fresh. simpl; tauto. }
  assert (H2 : ~ In "id" (map fst sample_rest)).
  { apply sample_index_fresh. simpl; tauto. }
  split; [exact H1 |]. split; [exact H2 |].
  exact (proj1 (proj2
    (first_column_irrelevant sample_noise 2
       ("Unnamed: 0", [Fin 0; Fin 1]) ("id", [Fin 7; Fin 9]) sample_rest 3 H1 H2))).
Defined.

(** * Further properties of the code *)

(** ** When the constructors raise *)

Lemma log_x_cols_none (df : DataFrame) :
  log_x_cols df = None <-> exists l, In l x_cols /\ ~ In l (labels df).
Proof.
  unfold log_x_cols.
  destruct (forallb (fun l => mem_label l (labels df)) x_cols) eqn:E.
  - split; [discriminate |]. intros [l [Hl Hn]]. exfalso. apply Hn.
    apply (proj1 (has_labels_forallb x_cols (labels df)) E l Hl).
  - split; [intros _ | reflexivity].
    assert (H : exists l, In l x_cols /\ mem_label l (labels df) = false).
    { clear -E. induction x_cols as [| a ls IH]; [discriminate |].
      simpl in E. destruct (mem_label a (labels df)) eqn:Ea.
      - destruct (IH E) as [l [Hl Hm]]. exists l. split; [right; exact Hl | exact Hm].
      - exists a. split; [left; reflexivity | exact Ea]. }
    destruct H as [l [Hl Hm]]. exists l. split; [exact Hl |].
    intros Hin. apply mem_label_In in Hin. congruence.
Qed.

(** X1.  [ODEDataset.__init__] raises exactly when the frame has no column or,
    its first column apart, lacks one of the six pre columns. *)
Theorem ODEDataset_init_raises_iff (n : nat) (c : column) (rest : list column) :
  ~ In (fst c) (map fst rest) ->
  ODEDataset.init (mkFrame n []) = None /\
  (ODEDataset.init (mkFrame n (c :: rest)) = None <->
   exists l, In l x_cols /\ ~ In l (map fst rest)).
Proof.
  intros Hfresh. split; [reflexivity |].
  rewrite ODEDataset_init_eq, drop_first_column_fresh by exact Hfresh. cbn [bind].
  rewrite <- (log_x_cols_none (mkFrame n rest)).
  destruct (log_x_cols (mkFrame n rest)); simpl; split; congruence.
Qed.

Lemma py_index_none (n : nat) (idx : Z) :
  py_index n idx = None <-> idx < - Z.of_nat n \/ Z.of_nat n <= idx.
Proof.
  unfold py_index.
  destruct (Z.leb_spec 0 idx); destruct (Z.ltb_spec idx (Z.of_nat n));
    destruct (Z.leb_spec (- Z.of_nat n) idx); destruct (Z.ltb_spec idx 0);
    simpl; split; intros; try discriminate; try reflexivity; lia.
Qed.

Lemma list_pop_y_cols_none (atr : Z) :
  atr < -6 \/ 6 <= atr -> list_pop y_cols atr = None.
Proof.
  intros H. unfold list_pop.
  replace (py_index (List.length y_cols) atr) with (@None nat); [reflexivity |].
  symmetry. apply py_index_none. simpl. lia.
Qed.

(** X2.  Both classifier datasets raise on an attribute index outside
    [-6 .. 5], whatever the data file holds: [y_cols.pop(atr)] fails. *)
Theorem init_atr_out_of_range (noise : nat -> nat -> R) (csv : DataFrame) (atr : Z) :
  atr < -6 \/ 6 <= atr ->
  ODEDatasetClassifier.init csv atr = None /\
  ODEDatasetClassifierNoisy.init noise csv atr = None.
Proof.
  intros H. pose proof (list_pop_y_cols_none atr H) as Hpop. split.
  - rewrite Classifier_init_eq.
    destruct (drop_first_column csv) as [raw |]; [| reflexivity]. cbn [bind].
    destruct (log_x_cols raw); [| reflexivity]. cbn [bind].
    rewrite Hpop. reflexivity.
  - rewrite Noisy_init_eq.
    destruct (drop_first_column csv) as [raw |]; [| reflexivity]. cbn [bind].
    destruct (add_noise noise raw) as [noisy |]; [| reflexivity]. cbn [bind].
    destruct (log_x_cols noisy); [| reflexivity]. cbn [bind].
    rewrite Hpop. reflexivity.
Qed.

Lemma init_atr_out_of_range_witness :
  ODEDatasetClassifier.init sample_csv 6 = None /\
  ODEDatasetClassifierNoisy.init sample_noise sample_csv 6 = None.
Proof.
  apply (init_atr_out_of_range sample_noise sample_csv 6). right. lia.
Defined.

Lemma ODEDataset_init_raises_iff_witness :
  ~ In "Unnamed: 0" (map fst sample_rest) /\
  (ODEDataset.init sample_csv = None <->
   exists l, In l x_cols /\ ~ In l (map fst sample_rest)).
Proof.
  assert (H : ~ In "Unnamed: 0" (map fst sample_rest)).
  { apply sample_index_fresh. simpl; tauto. }
  split; [exact H |].
  exact (proj2 (ODEDataset_init_raises_iff 2 ("Unnamed: 0", [Fin 0; Fin 1])
                  sample_rest H)).
Defined.

(** X3.  A negative attribute index counts from the end: the dataset built
    for [atr] in [-6 .. -1] holds the data and thresholds of the one built
    for [atr + 6], and keeps the negative index as its [atr]. *)
Theorem init_negative_atr (csv : DataFrame) (atr : Z) :
  -6 <= atr < 0 ->
  option_map (fun ds => (ODEDatasetClassifier.data ds,
                         ODEDatasetClassifier.y_max ds,
                         ODEDatasetClassifier.y_min ds))
             (ODEDatasetClassifier.init csv atr)
  = option_map (fun ds => (ODEDatasetClassifier.data ds,
                           ODEDatasetClassifier.y_max ds,
                           ODEDatasetClassifier.y_min ds))
               (ODEDatasetClassifier.init csv (atr + 6)) /\
  forall ds, ODEDatasetClassifier.init csv atr = Some ds ->
             ODEDatasetClassifier.atr ds = atr.
Proof.
  intros H. split.
  - rewrite !Classifier_init_eq.
    destruct (drop_first_column csv) as [raw |]; [| reflexivity]. cbn [bind].
    destruct (log_x_cols raw) as [logged |]; [| reflexivity]. cbn [bind].
    assert (E : list_pop y_cols atr = list_pop y_cols (atr + 6)).
    { assert (atr = -6 \/ atr = -5 \/ atr = -4 \/ atr = -3 \/ atr = -2 \/ atr = -1)
        as [E | [E | [E | [E | [E | E]]]]] by lia; subst atr; reflexivity. }
    rewrite E. destruct (list_pop y_cols (atr + 6)) as [ys |]; [| reflexivity].
    cbn [bind]. destruct (drop_columns ys logged) as [d |]; [| reflexivity].
    cbn [bind]. destruct (frame_max_at 6 d); [| reflexivity]. cbn [bind].
    destruct (frame_min_at 6 d); reflexivity.
  - intros ds Hinit.
    apply Classifier_init_inv in Hinit as (? & ? & ? & _ & _ & _ & _ & _ & _ & E).
    exact E.
Qed.

Lemma init_negative_atr_witness :
  option_map (fun ds => (ODEDatasetClassifier.data ds,
                         ODEDatasetClassifier.y_max ds,
                         ODEDatasetClassifier.y_min ds))
             (ODEDatasetClassifier.init sample_csv (-3))
  = option_map (fun ds => (ODEDatasetClassifier.data ds,
                           ODEDatasetClassifier.y_max ds,
                           ODEDatasetClassifier.y_min ds))
               (ODEDatasetClassifier.init sample_csv (-3 + 6)).
Proof.
  apply (init_negative_atr sample_csv (-3)). lia.
Defined.

(** ** Indexing a dataset *)

Lemma py_index_wrap (n : nat) (idx : Z) :
  - Z.of_nat n <= idx < 0 -> py_index n idx = py_index n (idx + Z.of_nat n).
Proof.
  intros H. unfold py_index.
  destruct (Z.leb_spec 0 idx); destruct (Z.ltb_spec idx (Z.of_nat n));
    destruct (Z.leb_spec (- Z.of_nat n) idx); destruct (Z.ltb_spec idx 0);
    destruct (Z.leb_spec 0 (idx + Z.of_nat n));
    destruct (Z.ltb_spec (idx + Z.of_nat n) (Z.of_nat n));
    simpl; try reflexivity; lia.
Qed.

Lemma iloc_none (df : DataFrame) (idx : Z) :
  iloc df idx = None <-> idx < - Z.of_nat (nrows df) \/ Z.of_nat (nrows df) <= idx.
Proof.
  rewrite <- py_index_none. unfold iloc.
  destruct (py_index (nrows df) idx); simpl; split; congruence.
Qed.

Lemma Classifier_getitem_none (ds : ODEDatasetClassifier.t) (idx : Z) :
  (6 < List.length (columns (ODEDatasetClassifier.data ds)))%nat ->
  (ODEDatasetClassifier.getitem ds idx = None <-> iloc (ODEDatasetClassifier.data ds) idx = None).
Proof.
  intros Hcols. unfold ODEDatasetClassifier.getitem.
  destruct (iloc (ODEDatasetClassifier.data ds) idx) as [row |] eqn:Hrow;
    [| simpl; tauto].
  cbn [bind]. split; [| discriminate]. intros H. exfalso.
  unfold iloc in Hrow. apply bind_some in Hrow as [i [_ E]]. injection E as E.
  destruct (nth_error row 6) as [y |] eqn:Hy.
  - cbn [bind] in H.
    destruct (tensor_set_one_hot (ODEDatasetClassifier.bracket ds y)) as [label [E' _]].
    { rewrite dataset_bracket_body. apply bracket_body_range. }
    rewrite E' in H. discriminate H.
  - apply nth_error_None in Hy. rewrite <- E, length_map in Hy.
    unfold column in *. lia.
Qed.

Lemma Classifier_init_columns (csv : DataFrame) (atr : Z) (ds : ODEDatasetClassifier.t) :
  ODEDatasetClassifier.init csv atr = Some ds ->
  (6 < List.length (columns (ODEDatasetClassifier.data ds)))%nat.
Proof.
  intros Hinit.
  apply Classifier_init_inv in Hinit as (? & ? & ? & _ & _ & _ & _ & Hmax & _).
  unfold frame_max_at in Hmax. apply bind_some in Hmax as [c [Hc _]].
  apply nth_error_Some. congruence.
Qed.

(** X4.  [__getitem__] raises exactly on an index outside [-len .. len - 1]:
    for every [ODEDataset], and for every [ODEDatasetClassifier] its
    constructor returned. *)
Theorem getitem_raises_iff (csv : DataFrame) (atr : Z) (ds : ODEDatasetClassifier.t)
    (rs : ODEDataset.t) (idx : Z) :
  ODEDatasetClassifier.init csv atr = Some ds ->
  (ODEDataset.getitem rs idx = None <->
   idx < - Z.of_nat (ODEDataset.len rs) \/ Z.of_nat (ODEDataset.len rs) <= idx) /\
  (ODEDatasetClassifier.getitem ds idx = None <->
   idx < - Z.of_nat (ODEDatasetClassifier.len ds) \/
   Z.of_nat (ODEDatasetClassifier.len ds) <= idx).
Proof.
  intros Hinit. split.
  - unfold ODEDataset.len. rewrite <- iloc_none. unfold ODEDataset.getitem.
    destruct (iloc (ODEDataset.data rs) idx); simpl; split; congruence.
  - unfold ODEDatasetClassifier.len. rewrite <- iloc_none.
    apply Classifier_getitem_none. apply (Classifier_init_columns csv atr ds Hinit).
Qed.

(** X5.  A negative index counts records from the end, in the three dataset
    classes. *)
Theorem getitem_negative_index (rs : ODEDataset.t) (ds : ODEDatasetClassifier.t)
    (ns : ODEDatasetClassifierNoisy.t) (idx : Z) :
  (- Z.of_nat (ODEDataset.len rs) <= idx < 0 ->
   ODEDataset.getitem rs idx = ODEDataset.getitem rs (idx + Z.of_nat (ODEDataset.len rs))) /\
  (- Z.of_nat (ODEDatasetClassifier.len ds) <= idx < 0 ->
   ODEDatasetClassifier.getitem ds idx =
   ODEDatasetClassifier.getitem ds (idx + Z.of_nat (ODEDatasetClassifier.len ds))) /\
  (- Z.of_nat (ODEDatasetClassifierNoisy.len ns) <= idx < 0 ->
   ODEDatasetClassifierNoisy.getitem ns idx =
   ODEDatasetClassifierNoisy.getitem ns (idx + Z.of_nat (ODEDatasetClassifierNoisy.len ns))).
Proof.
  split; [| split]; intros H.
  - unfold ODEDataset.getitem, iloc, ODEDataset.len in *.
    rewrite (py_index_wrap _ _ H). reflexivity.
  - unfold ODEDatasetClassifier.getitem, iloc, ODEDatasetClassifier.len in *.
    rewrite (py_index_wrap _ _ H). reflexivity.
  - unfold ODEDatasetClassifierNoisy.getitem, iloc, ODEDatasetClassifierNoisy.len in *.
    rewrite (py_index_wrap _ _ H). reflexivity.
Qed.

Lemma log_x_cols_nrows (df logged : DataFrame) :
  log_x_cols df = Some logged -> nrows logged = nrows df.
Proof.
  unfold log_x_cols. destruct (forallb _ x_cols); [| discriminate].
  intros E; injection E as <-. reflexivity.
Qed.

Lemma ODEDataset_init_nrows (csv : DataFrame) (ds : ODEDataset.t) :
  ODEDataset.init csv = Some ds -> nrows (ODEDataset.data ds) = nrows csv.
Proof.
  intros Hinit. apply ODEDataset_init_inv in Hinit as (raw & Hraw & Hlog).
  destruct (drop_first_column_keeps (fun _ => True) csv raw
              (proj2 (Forall_forall _ _) (fun _ _ => I)) Hraw) as [_ E1].
  rewrite (log_x_cols_nrows _ _ Hlog). exact E1.
Qed.

Lemma Classifier_init_nrows (csv : DataFrame) (atr : Z) (ds : ODEDatasetClassifier.t) :
  ODEDatasetClassifier.init csv atr = Some ds ->
  nrows (ODEDatasetClassifier.data ds) = nrows csv.
Proof.
  intros Hinit.
  apply Classifier_init_inv in Hinit
    as (raw & logged & ys & Hraw & Hlog & _ & Hdrop & _).
  destruct (drop_first_column_keeps (fun _ => True) csv raw
              (proj2 (Forall_forall _ _) (fun _ _ => I)) Hraw) as [_ E1].
  destruct (drop_columns_keeps (fun _ => True) ys logged _
              (proj2 (Forall_forall _ _) (fun _ _ => I)) Hdrop) as [_ E2].
  rewrite E2, (log_x_cols_nrows _ _ Hlog). exact E1.
Qed.

Lemma Noisy_init_nrows (noise : nat -> nat -> R) (csv : DataFrame) (atr : Z)
    (ds : ODEDatasetClassifierNoisy.t) :
  ODEDatasetClassifierNoisy.init noise csv atr = Some ds ->
  nrows (ODEDatasetClassifierNoisy.data ds) = nrows csv.
Proof.
  intros Hinit.
  apply Noisy_init_inv in Hinit
    as (raw & noisy & logged & ys & Hraw & Hnoisy & Hlog & _ & Hdrop & _).
  destruct (drop_first_column_keeps (fun _ => True) csv raw
              (proj2 (Forall_forall _ _) (fun _ _ => I)) Hraw) as [_ E1].
  destruct (add_noise_shape _ _ _ Hnoisy) as (_ & E0 & _).
  destruct (drop_columns_keeps (fun _ => True) ys logged _
              (proj2 (Forall_forall _ _) (fun _ _ => I)) Hdrop) as [_ E2].
  rewrite E2, (log_x_cols_nrows _ _ Hlog), E0. exact E1.
Qed.

(** X6.  The constructors keep every record: the length of a dataset is the
    number of rows of the data file. *)
Theorem len_is_number_of_rows (noise : nat -> nat -> R) (csv : DataFrame) (atr : Z) :
  (forall ds, ODEDataset.init csv = Some ds -> ODEDataset.len ds = nrows csv) /\
  (forall ds, ODEDatasetClassifier.init csv atr = Some ds ->
              ODEDatasetClassifier.len ds = nrows csv) /\
  (forall ds, ODEDatasetClassifierNoisy.init noise csv atr = Some ds ->
              ODEDatasetClassifierNoisy.len ds = nrows csv).
Proof.
  split; [| split]; intros ds Hinit.
  - apply ODEDataset_init_nrows, Hinit.
  - apply (Classifier_init_nrows csv atr), Hinit.
  - apply (Noisy_init_nrows noise csv atr), Hinit.
Qed.

Lemma getitem_raises_iff_witness :
  exists ds,
    ODEDatasetClassifier.init sample_csv 3 = Some ds /\
    (ODEDatasetClassifier.getitem ds 2 = None <->
     2 < - Z.of_nat (ODEDatasetClassifier.len ds) \/
     Z.of_nat (ODEDatasetClassifier.len ds) <= 2).
Proof.
  assert (H : exists ds, ODEDatasetClassifier.init sample_csv 3 = Some ds).
  { eexists. reflexivity. }
  destruct H as [ds Hinit]. exists ds. split; [exact Hinit |].
  exact (proj2 (getitem_raises_iff sample_csv 3 ds
                  (ODEDataset.mk sample_raw) 2 Hinit)).
Defined.

Lemma getitem_negative_index_witness :
  - Z.of_nat (ODEDataset.len (ODEDataset.mk sample_raw)) <= -1 < 0 /\
  ODEDataset.getitem (ODEDataset.mk sample_raw) (-1) =
  ODEDataset.getitem (ODEDataset.mk sample_raw)
    (-1 + Z.of_nat (ODEDataset.len (ODEDataset.mk sample_raw))).
Proof.
  assert (H : - Z.of_nat (ODEDataset.len (ODEDataset.mk sample_raw)) <= -1 < 0).
  { cbn. lia. }
  split; [exact H |].
  exact (proj1 (getitem_negative_index (ODEDataset.mk sample_raw)
                  (ODEDatasetClassifier.mk 3 NaN NaN sample_raw)
                  (ODEDatasetClassifierNoisy.mk 3 NaN NaN sample_raw) (-1)) H).
Defined.

Lemma len_is_number_of_rows_witness :
  exists ds,
    ODEDatasetClassifierNoisy.init sample_noise sample_csv 3 = Some ds /\
    ODEDatasetClassifierNoisy.len ds = 2%nat.
Proof.
  assert (H : exists ds, ODEDatasetClassifierNoisy.init sample_noise sample_csv 3 = Some ds).
  { eexists. reflexivity. }
  destruct H as [ds Hinit]. exists ds. split; [exact Hinit |].
  exact (proj2 (proj2 (len_is_number_of_rows sample_noise sample_csv 3)) ds Hinit).
Defined.

(** ** The noisy constructor *)

(** X7.  [ODEDatasetClassifierNoisy.__init__] needs exactly twelve columns
    behind the first one, whatever the noise drawn: with any other number
    [data + noise] raises. *)
Theorem noisy_init_needs_twelve_columns (noise : nat -> nat -> R) (n : nat)
    (c : column) (rest : list column) (atr : Z) :
  ~ In (fst c) (map fst rest) ->
  List.length rest <> 12%nat ->
  ODEDatasetClassifierNoisy.init noise (mkFrame n (c :: rest)) atr = None.
Proof.
  intros Hfresh Hlen. rewrite Noisy_init_eq.
  rewrite drop_first_column_fresh by exact Hfresh. cbn [bind].
  unfold add_noise. cbn [columns].
  destruct (Nat.eqb_spec (List.length rest) 12) as [E | _]; [contradiction | reflexivity].
Qed.

Lemma mapi_from_id {A : Type} (f : nat -> A -> A) (k : nat) (l : list A) :
  (forall j a, f j a = a) -> mapi_from k f l = l.
Proof.
  intros Hf. revert k. induction l as [| a l IH]; intros k; simpl; [reflexivity |].
  rewrite Hf, IH. reflexivity.
Qed.

Lemma num_add_zero (v : num) : (v + Fin 0)%num = v.
Proof. destruct v as [| r]; simpl; [reflexivity |]. rewrite Rplus_0_r. reflexivity. Qed.

Lemma add_zero_noise (raw : DataFrame) :
  List.length (columns raw) = 12%nat ->
  add_noise (fun _ _ => 0%R) raw = Some raw.
Proof.
  intros Hlen. unfold add_noise. rewrite Hlen. cbn [Nat.eqb].
  destruct raw as [n cols]. cbn [nrows columns]. f_equal. f_equal.
  unfold mapi. apply mapi_from_id. intros j [l vs]. cbn [fst snd]. f_equal.
  apply mapi_from_id. intros i v. apply num_add_zero.
Qed.

(** X8.  With a noise array of zeros the noisy constructor builds, attribute
    by attribute, the dataset of [ODEDatasetClassifier.__init__], on every
    data file with twelve columns behind the first. *)
Theorem zero_noise_is_no_noise (csv raw : DataFrame) (atr : Z) :
  drop_first_column csv = Some raw ->
  List.length (columns raw) = 12%nat ->
  option_map as_classifier (ODEDatasetClassifierNoisy.init (fun _ _ => 0%R) csv atr)
  = ODEDatasetClassifier.init csv atr.
Proof.
  intros Hraw Hlen. rewrite Noisy_init_eq, Classifier_init_eq, Hraw. cbn [bind].
  rewrite (add_zero_noise raw Hlen). cbn [bind].
  destruct (log_x_cols raw) as [logged |]; [| reflexivity]. cbn [bind].
  destruct (list_pop y_cols atr) as [ys |]; [| reflexivity]. cbn [bind].
  destruct (drop_columns ys logged) as [d |]; [| reflexivity]. cbn [bind].
  destruct (frame_max_at 6 d); [| reflexivity]. cbn [bind].
  destruct (frame_min_at 6 d); reflexivity.
Qed.

Lemma noisy_init_needs_twelve_columns_witness :
  ODEDatasetClassifierNoisy.init sample_noise
    (mkFrame 2 [("Unnamed: 0", [Fin 0; Fin 1]); ("xTarget", [Fin 4; Fin 8])]) 3 = None.
Proof.
  apply (noisy_init_needs_twelve_columns sample_noise 2
           ("Unnamed: 0", [Fin 0; Fin 1]) [("xTarget", [Fin 4; Fin 8])] 3).
  - simpl. intros [H | []]. discriminate H.
  - simpl. lia.
Defined.

Lemma zero_noise_is_no_noise_witness :
  option_map as_classifier
    (ODEDatasetClassifierNoisy.init (fun _ _ => 0%R) sample_csv 3)
  = ODEDatasetClassifier.init sample_csv 3.
Proof.
  apply (zero_noise_is_no_noise sample_csv sample_raw 3); reflexivity.
Defined.

Lemma Noisy_getitem_row (ds : ODEDatasetClassifierNoisy.t) (idx : Z) (i : nat) :
  py_index (nrows (ODEDatasetClassifierNoisy.data ds)) idx = Some i ->
  forall c, nth_error (columns (ODEDatasetClassifierNoisy.data ds)) 6 = Some c ->
  exists label,
    tensor_set (repeat zero 4)
      (ODEDatasetClassifierNoisy.bracket ds (nth i (snd c) NaN)) one = Some label /\
    ODEDatasetClassifierNoisy.getitem ds idx =
      Some (slice 0 6 (map (fun c : string * list num => nth i (snd c) NaN)
                           (columns (ODEDatasetClassifierNoisy.data ds))), label) /\
    List.length label = 4%nat /\
    forall j : nat, (j < 4)%nat ->
      nth j label NaN =
      if Z.of_nat j =? ODEDatasetClassifierNoisy.bracket ds (nth i (snd c) NaN)
      then one else zero.
Proof.
  intros Hi c Hc.
  assert (Hrange : In (ODEDatasetClassifierNoisy.bracket ds (nth i (snd c) NaN)) [0; 1; 2; 3]).
  { rewrite noisy_bracket_body. apply bracket_body_range. }
  destruct (tensor_set_one_hot _ Hrange) as [label [Hset [Hlen Hnth]]].
  exists label. split; [exact Hset |]. split; [| split; [exact Hlen | exact Hnth]].
  unfold ODEDatasetClassifierNoisy.getitem, iloc. rewrite Hi. cbn [bind].
  rewrite (map_nth_error (fun c : string * list num => nth i (snd c) NaN) 6 _ Hc). cbn [bind].
  rewrite Hset. reflexivity.
Qed.

(** X9.  The noisy dataset labels its records as the plain one does: for
    every valid index [__getitem__] returns a label of length 4 with a 1
    at [bracket(y)], [y] being entry 6 of the row, and 0 elsewhere. *)
Theorem noisy_getitem_one_hot (noise : nat -> nat -> R) (csv : DataFrame) (atr : Z)
    (ds : ODEDatasetClassifierNoisy.t) (idx : Z) :
  ODEDatasetClassifierNoisy.init noise csv atr = Some ds ->
  - Z.of_nat (ODEDatasetClassifierNoisy.len ds) <= idx
    < Z.of_nat (ODEDatasetClassifierNoisy.len ds) ->
  exists row y x label,
    iloc (ODEDatasetClassifierNoisy.data ds) idx = Some row /\
    nth_error row 6 = Some y /\
    ODEDatasetClassifierNoisy.getitem ds idx = Some (x, label) /\
    List.length label = 4%nat /\
    In (ODEDatasetClassifierNoisy.bracket ds y) [0; 1; 2; 3] /\
    forall j : nat, (j < 4)%nat ->
      nth j label NaN =
      if Z.of_nat j =? ODEDatasetClassifierNoisy.bracket ds y then one else zero.
Proof.
  intros Hinit Hidx.
  apply Noisy_init_inv in Hinit
    as (raw & noisy & logged & ys & _ & _ & _ & _ & _ & Hmax & _).
  unfold frame_max_at in Hmax. apply bind_some in Hmax as [c [Hc _]].
  destruct (py_index_valid _ _ Hidx) as [i [Hi _]].
  unfold ODEDatasetClassifierNoisy.len in Hi.
  destruct (Noisy_getitem_row ds idx i Hi c Hc) as (label & _ & Hget & Hlen & Hnth).
  exists (map (fun c : string * list num => nth i (snd c) NaN)
              (columns (ODEDatasetClassifierNoisy.data ds))),
    (nth i (snd c) NaN), (slice 0 6 (map (fun c : string * list num => nth i (snd c) NaN)
              (columns (ODEDatasetClassifierNoisy.data ds)))), label.
  split; [unfold iloc; rewrite Hi; reflexivity |].
  split; [exact (map_nth_error (fun c : string * list num => nth i (snd c) NaN) 6 _ Hc) |].
  split; [exact Hget |]. split; [exact Hlen |].
  split; [rewrite noisy_bracket_body; apply bracket_body_range | exact Hnth].
Qed.

Lemma noisy_getitem_one_hot_witness :
  exists ds x label,
    ODEDatasetClassifierNoisy.init sample_noise sample_csv 3 = Some ds /\
    ODEDatasetClassifierNoisy.getitem ds 0 = Some (x, label) /\
    List.length label = 4%nat.
Proof.
  assert (H : exists ds,
             ODEDatasetClassifierNoisy.init sample_noise sample_csv 3 = Some ds /\
             - Z.of_nat (ODEDatasetClassifierNoisy.len ds) <= 0
               < Z.of_nat (ODEDatasetClassifierNoisy.len ds)).
  { eexists. split; [reflexivity | cbn; lia]. }
  destruct H as [ds [Hinit Hidx]].
  destruct (noisy_getitem_one_hot sample_noise sample_csv 3 ds 0 Hinit Hidx)
    as (row & y & x & label & _ & _ & Hget & Hlen & _).
  exists ds, x, label. repeat split; assumption.
Defined.

(** ** The thresholds and the classes that occur *)

Lemma fold_max_attained (vs : list num) (a hi : R) :
  fold_left max_step vs (Fin a) = Fin hi -> hi = a \/ In (Fin hi) vs.
Proof.
  revert a. induction vs as [| v vs IH]; intros a; simpl.
  - intros E; injection E as <-. left; reflexivity.
  - destruct v as [| b]; simpl.
    + intros E. destruct (IH a E) as [H | H]; [left; exact H | right; right; exact H].
    + intros E. destruct (IH (Rmax a b) E) as [H | H]; [| right; right; exact H].
      subst hi. destruct (Rle_dec a b) as [Hab | Hab].
      * rewrite Rmax_right by exact Hab. right; left; reflexivity.
      * rewrite Rmax_left by lra. left; reflexivity.
Qed.

Lemma fold_min_attained (vs : list num) (a lo : R) :
  fold_left min_step vs (Fin a) = Fin lo -> lo = a \/ In (Fin lo) vs.
Proof.
  revert a. induction vs as [| v vs IH]; intros a; simpl.
  - intros E; injection E as <-. left; reflexivity.
  - destruct v as [| b]; simpl.
    + intros E. destruct (IH a E) as [H | H]; [left; exact H | right; right; exact H].
    + intros E. destruct (IH (Rmin a b) E) as [H | H]; [| right; right; exact H].
      subst lo. destruct (Rle_dec a b) as [Hab | Hab].
      * rewrite Rmin_left by exact Hab. left; reflexivity.
      * rewrite Rmin_right by lra. right; left; reflexivity.
Qed.

(** The maximum and the minimum of a column are entries of it. *)
Lemma series_max_attained (vs : list num) (hi : R) :
  series_max vs = Fin hi -> In (Fin hi) vs.
Proof.
  unfold series_max. induction vs as [| v vs IH]; simpl; [discriminate |].
  destruct v as [| b]; simpl.
  - intros E. right. apply IH, E.
  - intros E. destruct (fold_max_attained vs b hi E) as [-> | H];
      [left; reflexivity | right; exact H].
Qed.

Lemma series_min_attained (vs : list num) (lo : R) :
  series_min vs = Fin lo -> In (Fin lo) vs.
Proof.
  unfold series_min. induction vs as [| v vs IH]; simpl; [discriminate |].
  destruct v as [| b]; simpl.
  - intros E. right. apply IH, E.
  - intros E. destruct (fold_min_attained vs b lo E) as [-> | H];
      [left; reflexivity | right; exact H].
Qed.

Lemma py_index_of_nat (n i : nat) : (i < n)%nat -> py_index n (Z.of_nat i) = Some i.
Proof.
  intros H. unfold py_index.
  destruct (Z.leb_spec 0 (Z.of_nat i)); [| lia].
  destruct (Z.ltb_spec (Z.of_nat i) (Z.of_nat n)); [| lia].
  simpl. rewrite Nat2Z.id. reflexivity.
Qed.

(** What [ODEDatasetClassifier.__getitem__] computes for row [i], given
    column 6 of the stored frame. *)
Lemma Classifier_getitem_row (ds : ODEDatasetClassifier.t) (idx : Z) (i : nat)
    (c : column) :
  py_index (nrows (ODEDatasetClassifier.data ds)) idx = Some i ->
  nth_error (columns (ODEDatasetClassifier.data ds)) 6 = Some c ->
  ODEDatasetClassifier.getitem ds idx =
  (label <- tensor_set (repeat zero 4)
              (ODEDatasetClassifier.bracket ds (nth i (snd c) NaN)) one ;;
   Some (slice 0 6 (map (fun c : string * list num => nth i (snd c) NaN)
                        (columns (ODEDatasetClassifier.data ds))), label)).
Proof.
  intros Hi Hc. unfold ODEDatasetClassifier.getitem, iloc. rewrite Hi. cbn [bind].
  rewrite (map_nth_error (fun c : string * list num => nth i (snd c) NaN) 6 _ Hc).
  reflexivity.
Qed.

(** Column 6 of the frame a constructor stored, on a finite rectangular
    data file: one finite entry per record, and the stored thresholds are
    its minimum and maximum. *)
Lemma Classifier_selected_column (csv : DataFrame) (atr : Z)
    (ds : ODEDatasetClassifier.t) :
  all_finite csv -> rectangular csv ->
  ODEDatasetClassifier.init csv atr = Some ds ->
  exists c : column,
    nth_error (columns (ODEDatasetClassifier.data ds)) 6 = Some c /\
    List.length (snd c) = nrows (ODEDatasetClassifier.data ds) /\
    nrows (ODEDatasetClassifier.data ds) = nrows csv /\
    Forall (value_ok (fst c)) (snd c) /\
    ODEDatasetClassifier.y_max ds = series_max (snd c) /\
    ODEDatasetClassifier.y_min ds = series_min (snd c).
Proof.
  intros Hfin Hrect Hinit.
  pose proof (Classifier_init_nrows csv atr ds Hinit) as Hrows.
  apply Classifier_init_inv in Hinit
    as (raw & logged & ys & Hraw & Hlog & _ & Hdrop & Hmax & Hmin & _).
  destruct (drop_first_column_keeps _ csv raw Hfin Hraw) as [Hfin' _].
  pose proof (drop_first_column_rectangular csv raw Hrect Hraw) as Hrect'.
  pose proof (log_x_cols_ok raw _ Hfin' Hlog) as Hok.
  pose proof (log_x_cols_rectangular raw _ Hrect' Hlog) as Hrect''.
  destruct (drop_columns_keeps _ ys logged _ Hok Hdrop) as [Hok' _].
  pose proof (drop_columns_rectangular ys logged _ Hrect'' Hdrop) as Hrect3.
  unfold frame_max_at in Hmax. apply bind_some in Hmax as [c [Hc Emax]].
  unfold frame_min_at in Hmin. apply bind_some in Hmin as [c' [Hc' Emin]].
  rewrite Hc in Hc'. injection Hc' as <-.
  injection Emax as Emax. injection Emin as Emin.
  pose proof (nth_error_In _ _ Hc) as Hin.
  unfold stored_ok, rectangular in *. rewrite Forall_forall in Hok', Hrect3.
  exists c. split; [exact Hc |]. split; [apply Hrect3, Hin |].
  split; [exact Hrows |]. split; [apply Hok', Hin |]. split; congruence.
Qed.

Lemma value_ok_nonneg (n : string) (r : R) : value_ok n (Fin r) -> (0 <= r)%R.
Proof.
  intros [r' [E H]]. injection E as <-. destruct (mem_label n x_cols); lra.
Qed.

(** X10.  On a finite, rectangular data file with at least one record
    [ODEDatasetClassifier.__init__] stores finite thresholds with
    [0 <= y_min <= y_max], and the value [__getitem__] brackets (entry 6
    of the row) is finite and lies between them, for every record. *)
Theorem thresholds_enclose_bracketed_values (csv : DataFrame) (atr : Z)
    (ds : ODEDatasetClassifier.t) :
  all_finite csv -> rectangular csv -> (0 < nrows csv)%nat ->
  ODEDatasetClassifier.init csv atr = Some ds ->
  exists lo hi : R,
    ODEDatasetClassifier.y_min ds = Fin lo /\
    ODEDatasetClassifier.y_max ds = Fin hi /\
    (0 <= lo <= hi)%R /\
    forall idx row y,
      iloc (ODEDatasetClassifier.data ds) idx = Some row ->
      nth_error row 6 = Some y ->
      exists r : R, y = Fin r /\ (lo <= r <= hi)%R.
Proof.
  intros Hfin Hrect Hrows Hinit.
  destruct (Classifier_selected_column csv atr ds Hfin Hrect Hinit)
    as (c & Hc & Hlen & Hn & Hok & Emax & Emin).
  assert (Hcfin : Forall is_fin (snd c)).
  { eapply Forall_impl; [| exact Hok]. intros v. apply value_ok_fin. }
  assert (Hne : snd c <> []).
  { intros E. rewrite E in Hlen. simpl in Hlen. lia. }
  destruct (series_bounds (snd c) Hne Hcfin) as (lo & hi & Elo & Ehi & Hle & Hall).
  exists lo, hi. split; [congruence |]. split; [congruence |]. split.
  - split; [| exact Hle].
    pose proof (series_min_attained _ _ Elo) as Hin.
    rewrite Forall_forall in Hok. apply (value_ok_nonneg (fst c)), Hok, Hin.
  - intros idx row y Hrow Hy. unfold iloc in Hrow.
    apply bind_some in Hrow as [i [Hi E]]. injection E as <-.
    apply py_index_bound in Hi.
    rewrite (map_nth_error (fun c : string * list num => nth i (snd c) NaN) 6 _ Hc) in Hy.
    injection Hy as <-.
    rewrite Forall_forall in Hall. apply Hall. apply nth_In. lia.
Qed.

Lemma thresholds_enclose_bracketed_values_witness :
  exists ds lo hi,
    ODEDatasetClassifier.init sample_csv 3 = Some ds /\
    ODEDatasetClassifier.y_min ds = Fin lo /\
    ODEDatasetClassifier.y_max ds = Fin hi /\
    (0 <= lo <= hi)%R.
Proof.
  assert (H : exists ds, ODEDatasetClassifier.init sample_csv 3 = Some ds).
  { eexists. reflexivity. }
  destruct H as [ds Hinit].
  destruct (thresholds_enclose_bracketed_values sample_csv 3 ds
              sample_csv_finite sample_csv_rectangular ltac:(simpl; lia) Hinit)
    as (lo & hi & Hlo & Hhi & Hle & _).
  exists ds, lo, hi. repeat split; try assumption; apply Hle.
Defined.

Lemma In_nth_fin (vs : list num) (r : R) :
  In (Fin r) vs -> exists i, (i < List.length vs)%nat /\ nth i vs NaN = Fin r.
Proof. intros H. apply (In_nth vs (Fin r) NaN H). Qed.

(** X11.  A class every dataset holds.  On a finite, rectangular data file
    with at least one record, a record that holds the minimum of the
    bracketed column is labelled class 0, so some record is; and when
    the bracketed column is constant, every record is labelled class 0. *)
Theorem lowest_class_occurs (csv : DataFrame) (atr : Z)
    (ds : ODEDatasetClassifier.t) :
  all_finite csv -> rectangular csv -> (0 < nrows csv)%nat ->
  ODEDatasetClassifier.init csv atr = Some ds ->
  exists lo hi : R,
    ODEDatasetClassifier.y_min ds = Fin lo /\
    ODEDatasetClassifier.y_max ds = Fin hi /\
    (exists idx row x,
        iloc (ODEDatasetClassifier.data ds) idx = Some row /\
        nth_error row 6 = Some (Fin lo) /\
        ODEDatasetClassifier.getitem ds idx = Some (x, [one; zero; zero; zero])) /\
    (lo = hi ->
       forall idx,
         - Z.of_nat (ODEDatasetClassifier.len ds) <= idx
           < Z.of_nat (ODEDatasetClassifier.len ds) ->
         exists x, ODEDatasetClassifier.getitem ds idx
                   = Some (x, [one; zero; zero; zero])).
Proof.
  intros Hfin Hrect Hrows Hinit.
  destruct (Classifier_selected_column csv atr ds Hfin Hrect Hinit)
    as (c & Hc & Hlen & Hn & Hok & Emax & Emin).
  assert (Hcfin : Forall is_fin (snd c)).
  { eapply Forall_impl; [| exact Hok]. intros v. apply value_ok_fin. }
  assert (Hne : snd c <> []).
  { intros E. rewrite E in Hlen. simpl in Hlen. lia. }
  destruct (series_bounds (snd c) Hne Hcfin) as (lo & hi & Elo & Ehi & Hle & Hall).
  rewrite Elo in Emin. rewrite Ehi in Emax.
  exists lo, hi. split; [exact Emin |]. split; [exact Emax |].
  assert (Hbr : forall y, ODEDatasetClassifier.bracket ds (Fin y)
                          = bracket_body (Fin lo) (Fin hi) (Fin y)).
  { intros y. rewrite dataset_bracket_body, Emin, Emax. reflexivity. }
  split.
  - destruct (In_nth_fin _ _ (series_min_attained _ _ Elo)) as [i [Hi Ei]].
    assert (Hidx : py_index (nrows (ODEDatasetClassifier.data ds)) (Z.of_nat i)
                   = Some i) by (apply py_index_of_nat; lia).
    exists (Z.of_nat i). eexists. eexists.
    split; [unfold iloc; rewrite Hidx; reflexivity |]. split.
    + rewrite (map_nth_error (fun c : string * list num => nth i (snd c) NaN) 6 _ Hc).
      rewrite Ei. reflexivity.
    + rewrite (Classifier_getitem_row ds (Z.of_nat i) i c Hidx Hc).
      rewrite Ei, Hbr.
      replace (bracket_body (Fin lo) (Fin hi) (Fin lo)) with 0; [reflexivity |].
      symmetry. bracket_cases; try reflexivity; exfalso; lra.
  - intros Heq idx Hidx.
    destruct (py_index_valid _ _ Hidx) as [i [Hi Hb]].
    unfold ODEDatasetClassifier.len in Hi, Hb.
    rewrite (Classifier_getitem_row ds idx i c Hi Hc).
    rewrite Forall_forall in Hall.
    destruct (Hall (nth i (snd c) NaN)) as [r [Er Hr]]; [apply nth_In; lia |].
    rewrite Er, Hbr. eexists.
    replace (bracket_body (Fin lo) (Fin hi) (Fin r)) with 0; [reflexivity |].
    symmetry. subst hi. bracket_cases; try reflexivity; exfalso; lra.
Qed.

Lemma lowest_class_occurs_witness :
  exists ds idx x,
    ODEDatasetClassifier.init sample_csv 3 = Some ds /\
    ODEDatasetClassifier.getitem ds idx = Some (x, [one; zero; zero; zero]).
Proof.
  assert (H : exists ds, ODEDatasetClassifier.init sample_csv 3 = Some ds).
  { eexists. reflexivity. }
  destruct H as [ds Hinit].
  destruct (lowest_class_occurs sample_csv 3 ds
              sample_csv_finite sample_csv_rectangular ltac:(simpl; lia) Hinit)
    as (lo & hi & _ & _ & (idx & row & x & _ & _ & Hget) & _).
  exists ds, idx, x. split; assumption.
Defined.

(** ** The rule-based classifiers *)

Lemma tensor_get_none {A : Type} (x : list A) (k : Z) :
  tensor_get x k = None <->
  k < - Z.of_nat (List.length x) \/ Z.of_nat (List.length x) <= k.
Proof.
  rewrite <- py_index_none. unfold tensor_get.
  destruct (py_index (List.length x) k) as [i |] eqn:Hi; simpl; [| tauto].
  split; [| discriminate]. intros H. exfalso.
  apply py_index_bound in Hi. apply nth_error_None in H. lia.
Qed.

Lemma lazy_translate_bracket (self : lazy_classifier.t) (y : num) :
  exists label,
    lazy_classifier.translate (lazy_classifier.bracket self y) = Some label /\
    In label severity_labels.
Proof.
  pose proof (bracket_body_range (lazy_classifier.y_min self)
                (lazy_classifier.y_max self) y) as H.
  rewrite lazy_bracket_body. simpl in H.
  destruct H as [E | [E | [E | [E | []]]]]; rewrite <- E; eexists;
    (split; [reflexivity | simpl; tauto]).
Qed.

Lemma lazy2_translate_bracket (self : lazy_classifier2.t) (y : num) :
  exists label,
    lazy_classifier2.translate (lazy_classifier2.bracket self y) = Some label /\
    In label ["Medium-Low"; "Medium-High"; "High"].
Proof.
  pose proof (bracket_body_range (lazy_classifier2.y_min self)
                (lazy_classifier2.y_max self) y) as H.
  rewrite lazy2_bracket_body. simpl in H.
  destruct H as [E | [E | [E | [E | []]]]]; rewrite <- E; eexists;
    (split; [reflexivity | simpl; tauto]).
Qed.

(** X12.  [forward] of the two rule-based classifiers raises exactly when
    [self.value] is no index of the feature vector, and otherwise returns
    a label, never [None]: one of the four severity labels for
    [lazy_classifier], and one of "Medium-Low", "Medium-High", "High"
    (never "Low") for [lazy_classifier2]. *)
Theorem lazy_forward_returns_label (self : lazy_classifier.t)
    (self2 : lazy_classifier2.t) (x : list num) :
  (lazy_classifier.forward self x = None <->
   lazy_classifier.value self < - Z.of_nat (List.length x) \/
   Z.of_nat (List.length x) <= lazy_classifier.value self) /\
  (forall r, lazy_classifier.forward self x = Some r ->
             exists label, r = Some label /\ In label severity_labels) /\
  (lazy_classifier2.forward self2 x = None <->
   lazy_classifier2.value self2 < - Z.of_nat (List.length x) \/
   Z.of_nat (List.length x) <= lazy_classifier2.value self2) /\
  (forall r, lazy_classifier2.forward self2 x = Some r ->
             exists label, r = Some label /\
                           In label ["Medium-Low"; "Medium-High"; "High"]).
Proof.
  split; [| split; [| split]].
  - rewrite <- tensor_get_none. unfold lazy_classifier.forward.
    destruct (tensor_get x (lazy_classifier.value self)); simpl; split; congruence.
  - intros r H. unfold lazy_classifier.forward in H.
    apply bind_some in H as [v [_ E]]. injection E as <-.
    destruct (lazy_translate_bracket self (np_exp v)) as [label [E Hl]].
    exists label. split; assumption.
  - rewrite <- tensor_get_none. unfold lazy_classifier2.forward.
    destruct (tensor_get x (lazy_classifier2.value self2)); simpl; split; congruence.
  - intros r H. unfold lazy_classifier2.forward in H.
    apply bind_some in H as [v [_ E]]. injection E as <-.
    destruct (lazy2_translate_bracket self2 (np_exp v)) as [label [E Hl]].
    exists label. split; assumption.
Qed.

Lemma nth_map_nan (f : num -> num) (l : list num) (i : nat) :
  f NaN = NaN -> nth i (map f l) NaN = f (nth i l NaN).
Proof.
  intros Hf. rewrite <- Hf at 1. apply map_nth.
Qed.

(** ** Labels and [argmax] *)

Lemma argmax_from_bound (l : list num) (best : num) (at_best next : nat) :
  (at_best < next)%nat ->
  (argmax_from best at_best next l < next + List.length l)%nat.
Proof.
  revert best at_best next. induction l as [| v l IH]; intros best ab nx H; simpl.
  - lia.
  - destruct (beats v best).
    + specialize (IH v nx (S nx) ltac:(lia)). lia.
    + specialize (IH best ab (S nx) ltac:(lia)). lia.
Qed.

(** [argmax] returns an index of its argument. *)
Lemma argmax_bound (l : list num) (k : nat) :
  argmax l = Some k -> (k < List.length l)%nat.
Proof.
  destruct l as [| v l]; simpl; [discriminate |].
  intros E; injection E as <-.
  pose proof (argmax_from_bound l v 0 1 ltac:(lia)). lia.
Qed.

Lemma argmax_some (l : list num) : l <> [] -> exists k, argmax l = Some k.
Proof. destruct l; [contradiction | intros _; eexists; reflexivity]. Qed.

(** Decoding the label [__getitem__] encoded. *)
Lemma argmax_one_hot (k : Z) (label : list num) :
  In k [0; 1; 2; 3] ->
  tensor_set (repeat zero 4) k one = Some label ->
  argmax label = Some (Z.to_nat k).
Proof.
  intros Hk. simpl in Hk.
  destruct Hk as [E | [E | [E | [E | []]]]]; subst k;
    intros H; injection H as <-; unfold argmax, zero, one; simpl;
    repeat match goal with |- context [Rgt_dec ?a ?b] => destruct (Rgt_dec a b) end;
    try reflexivity; exfalso; lra.
Qed.

(** X13.  [torch.argmax] recovers the class from the label of a record: the
    argmax of a label [ODEDatasetClassifier.__getitem__] returned is
    [bracket(y)] for entry 6 of the row. *)
Theorem argmax_decodes_label (ds : ODEDatasetClassifier.t)
    (idx : Z) (x label : list num) :
  ODEDatasetClassifier.getitem ds idx = Some (x, label) ->
  exists row y,
    iloc (ODEDatasetClassifier.data ds) idx = Some row /\
    nth_error row 6 = Some y /\
    argmax label = Some (Z.to_nat (ODEDatasetClassifier.bracket ds y)) /\
    (Z.to_nat (ODEDatasetClassifier.bracket ds y) < 4)%nat.
Proof.
  intros H. unfold ODEDatasetClassifier.getitem in H.
  apply bind_some in H as [row [Hrow H]].
  apply bind_some in H as [y [Hy H]].
  apply bind_some in H as [l [Hl E]]. injection E as _ <-.
  exists row, y. split; [exact Hrow |]. split; [exact Hy |].
  assert (Hr : In (ODEDatasetClassifier.bracket ds y) [0; 1; 2; 3]).
  { rewrite dataset_bracket_body. apply bracket_body_range. }
  split; [apply (argmax_one_hot _ _ Hr Hl) |].
  simpl in Hr. lia.
Qed.

Lemma argmax_decodes_label_witness :
  exists ds x label row y,
    ODEDatasetClassifier.init sample_csv 3 = Some ds /\
    ODEDatasetClassifier.getitem ds 1 = Some (x, label) /\
    iloc (ODEDatasetClassifier.data ds) 1 = Some row /\
    nth_error row 6 = Some y /\
    argmax label = Some (Z.to_nat (ODEDatasetClassifier.bracket ds y)).
Proof.
  assert (H : exists ds x label,
             ODEDatasetClassifier.init sample_csv 3 = Some ds /\
             ODEDatasetClassifier.getitem ds 1 = Some (x, label)).
  { destruct sample_label as (ds & x & Hinit & _ & _ & Hget).
    exists ds, x, [zero; zero; zero; one]. split; assumption. }
  destruct H as (ds & x & label & Hinit & Hget).
  destruct (argmax_decodes_label ds 1 x label Hget)
    as (row & y & Hrow & Hy & Harg & _).
  exists ds, x, label, row, y. repeat split; assumption.
Defined.

(** ** Records of a data file in the standard layout *)

Section StandardLayout.

Variables (n : nat) (c0 : column).
Variables (xT xP xI xV xE xM yT yP yI yV yE yM : list num).
Variable atr : Z.
Hypothesis c0_fresh : ~ In (fst c0) (x_cols ++ y_cols)%list.
Hypothesis atr_range : 0 <= atr < 6.

Let csv : DataFrame := standard_csv n c0 xT xP xI xV xE xM yT yP yI yV yE yM.
Let pre : list num := nth (Z.to_nat atr) [xT; xP; xI; xV; xE; xM] [].
Let post : list num := nth (Z.to_nat atr) [yT; yP; yI; yV; yE; yM] [].

(** What [__getitem__] returns for row [i], and what the rule-based
    model and [argmax] make of it. *)
Lemma standard_record (ds : ODEDatasetClassifier.t) (idx : Z) (i : nat) :
  ODEDatasetClassifier.init csv atr = Some ds ->
  py_index n idx = Some i ->
  exists x label,
    ODEDatasetClassifier.getitem ds idx = Some (x, label) /\
    x = map (fun col => np_log (clip (nth i col NaN))) [xT; xP; xI; xV; xE; xM] /\
    tensor_get (map np_exp x) atr
    = Some (np_exp (np_log (clip (nth i pre NaN)))) /\
    tensor_get x atr = Some (np_log (clip (nth i pre NaN))) /\
    argmax label
    = Some (Z.to_nat (ODEDatasetClassifier.bracket ds (clip (nth i post NaN)))).
Proof.
  intros Hinit Hi.
  destruct (Classifier_standard_layout n c0 xT xP xI xV xE xM yT yP yI yV yE yM atr
              c0_fresh atr_range) as [ds' [Hinit' Hdata]].
  change (ODEDatasetClassifier.init csv atr = Some ds') in Hinit'.
  rewrite Hinit in Hinit'.
  injection Hinit' as <-.
  assert (Hc : nth_error (columns (ODEDatasetClassifier.data ds)) 6
               = Some (nth (Z.to_nat atr) y_cols "", map clip post)).
  { rewrite Hdata. reflexivity. }
  assert (Hi' : py_index (nrows (ODEDatasetClassifier.data ds)) idx = Some i).
  { rewrite Hdata. exact Hi. }
  pose proof (Classifier_getitem_row ds idx i _ Hi' Hc) as Hget.
  cbn [snd] in Hget. rewrite (nth_map_nan clip post i clip_nan) in Hget.
  assert (Hr : In (ODEDatasetClassifier.bracket ds (clip (nth i post NaN))) [0; 1; 2; 3]).
  { rewrite dataset_bracket_body. apply bracket_body_range. }
  destruct (tensor_set_one_hot _ Hr) as [label [Hset _]].
  rewrite Hset in Hget. cbn [bind] in Hget.
  rewrite Hdata in Hget. cbn [columns map snd slice Nat.sub skipn firstn] in Hget.
  rewrite !(nth_map_nan (fun v => np_log (clip v)) _ i eq_refl) in Hget.
  eexists. exists label. split; [exact Hget |]. split; [reflexivity |].
  split; [| split; [| exact (argmax_one_hot _ _ Hr Hset)]].
  - cbn [map]. unfold pre.
    assert (atr = 0 \/ atr = 1 \/ atr = 2 \/ atr = 3 \/ atr = 4 \/ atr = 5)
      as [E | [E | [E | [E | [E | E]]]]] by lia; rewrite E; reflexivity.
  - unfold pre.
    assert (atr = 0 \/ atr = 1 \/ atr = 2 \/ atr = 3 \/ atr = 4 \/ atr = 5)
      as [E | [E | [E | [E | [E | E]]]]] by lia; rewrite E; reflexivity.
Qed.

Lemma standard_init_some :
  exists ds, ODEDatasetClassifier.init csv atr = Some ds.
Proof.
  destruct (Classifier_standard_layout n c0 xT xP xI xV xE xM yT yP yI yV yE yM atr
              c0_fresh atr_range) as [ds [Hinit _]].
  exists ds. exact Hinit.
Qed.


(** X15.  [test_step] of the script's rule-based model on a batch of records
    of the dataset never raises.  The prediction for a record is the
    bracket of the exponential of the stored logarithm of its clipped pre
    value, the target the bracket of its clipped post value, both against
    the thresholds of the post values. *)
Theorem lazy_test_step_on_records (idxs : list Z) (rows : list nat) :
  Forall2 (fun idx i => py_index n idx = Some i) idxs rows ->
  exists ds items,
    ODEDatasetClassifier.init csv atr = Some ds /\
    map_raise (ODEDatasetClassifier.getitem ds) idxs = Some items /\
    lazy_classifier.test_step_scored (main.lazy_model ds)
      (map fst items) (map snd items)
    = Some (map (fun i => ODEDatasetClassifier.bracket ds
                            (np_exp (np_log (clip (nth i pre NaN))))) rows,
            map (fun i => Z.to_nat
                            (ODEDatasetClassifier.bracket ds (clip (nth i post NaN))))
                rows).
Proof.
  intros Hall. destruct standard_init_some as [ds Hinit]. exists ds.
  pose proof Hinit as Hinv.
  apply Classifier_init_inv in Hinv as (? & ? & ? & _ & _ & _ & _ & _ & _ & Hatr).
  assert (H : exists items,
             map_raise (ODEDatasetClassifier.getitem ds) idxs = Some items /\
             map_raise (fun row => tensor_get row atr) (map (map np_exp) (map fst items))
             = Some (map (fun i => np_exp (np_log (clip (nth i pre NaN)))) rows) /\
             map_raise argmax (map snd items)
             = Some (map (fun i => Z.to_nat (ODEDatasetClassifier.bracket ds
                                               (clip (nth i post NaN)))) rows)).
  { induction Hall as [| idx i idxs rows Hi _ IH].
    - exists []. repeat split.
    - destruct IH as (items & Hitems & Hpred & Htarget).
      destruct (standard_record ds idx i Hinit Hi)
        as (xi & li & Hget & _ & Hx & _ & Hlabel).
      exists ((xi, li) :: items). cbn [map_raise map fst snd bind].
      rewrite Hget, Hitems, Hx, Hpred, Hlabel, Htarget. repeat split. }
  destruct H as (items & Hitems & Hpred & Htarget).
  exists items. split; [exact Hinit |]. split; [exact Hitems |].
  unfold lazy_classifier.test_step_scored, main.lazy_model, lazy_classifier.init.
  cbn [lazy_classifier.value]. rewrite Hatr, Hpred. cbn [bind].
  rewrite Htarget. cbn [bind]. rewrite map_map. reflexivity.
Qed.

(** X16.  The regression dataset on the same file: [__getitem__] returns the
    logarithms of the six clipped pre values as features and the six
    clipped post values as targets. *)
Theorem ODEDataset_getitem_standard (idx : Z) (i : nat) :
  py_index n idx = Some i ->
  exists ds,
    ODEDataset.init csv = Some ds /\
    ODEDataset.getitem ds idx
    = Some (map (fun col => np_log (clip (nth i col NaN))) [xT; xP; xI; xV; xE; xM],
            map (fun col => clip (nth i col NaN)) [yT; yP; yI; yV; yE; yM]).
Proof.
  intros Hi.
  assert (H : ODEDataset.init csv
              = Some (ODEDataset.mk
                  (mkFrame n
                    [ ("xTarget", map (fun v => np_log (clip v)) xT);
                      ("xPre-Infected", map (fun v => np_log (clip v)) xP);
                      ("xInfected", map (fun v => np_log (clip v)) xI);
                      ("xVirus", map (fun v => np_log (clip v)) xV);
                      ("xCDE8e", map (fun v => np_log (clip v)) xE);
                      ("xCD8m", map (fun v => np_log (clip v)) xM);
                      ("yTarget", map clip yT); ("yPre-Infected", map clip yP);
                      ("yInfected", map clip yI); ("yVirus", map clip yV);
                      ("yCDE8e", map clip yE); ("yCD8m", map clip yM) ]))).
  { rewrite ODEDataset_init_eq. unfold csv, standard_csv.
    rewrite drop_first_column_fresh by exact c0_fresh. reflexivity. }
  eexists. split; [exact H |].
  unfold ODEDataset.getitem, iloc. cbn [ODEDataset.data nrows columns].
  rewrite Hi. cbn [bind map snd slice Nat.sub skipn firstn].
  rewrite !(nth_map_nan (fun v => np_log (clip v)) _ i eq_refl).
  rewrite !(nth_map_nan clip _ i clip_nan). reflexivity.
Qed.

End StandardLayout.


Lemma lazy_test_step_on_records_witness :
  exists ds items,
    ODEDatasetClassifier.init sample_csv 3 = Some ds /\
    map_raise (ODEDatasetClassifier.getitem ds) [0; -1] = Some items /\
    lazy_classifier.test_step_scored (main.lazy_model ds)
      (map fst items) (map snd items)
    = Some ([ODEDatasetClassifier.bracket ds (np_exp (np_log (clip (Fin 5))));
             ODEDatasetClassifier.bracket ds (np_exp (np_log (clip (Fin 6))))],
            [Z.to_nat (ODEDatasetClassifier.bracket ds (clip (Fin 2)));
             Z.to_nat (ODEDatasetClassifier.bracket ds (clip (Fin 10)))]).
Proof.
  assert (Hfresh : ~ In "Unnamed: 0" (x_cols ++ y_cols)%list).
  { apply (sample_index_fresh "Unnamed: 0"). simpl; tauto. }
  exact (lazy_test_step_on_records 2 ("Unnamed: 0", [Fin 0; Fin 1])
           [Fin 4; Fin 8] [Fin 0; Fin 2] [Fin 0; Fin 3] [Fin 5; Fin 6]
           [Fin 1; Fin 2] [Fin 1; Fin 1] [Fin 3; Fin 7] [Fin 1; Fin 2]
           [Fin 0; Fin 4] [Fin 2; Fin 10] [Fin 2; Fin 3] [Fin 1; Fin 1] 3
           Hfresh ltac:(lia) [0; -1] [0%nat; 1%nat]
           ltac:(repeat constructor)).
Defined.

Lemma ODEDataset_getitem_standard_witness :
  exists ds,
    ODEDataset.init sample_csv = Some ds /\
    ODEDataset.getitem ds 0
    = Some (map (fun col => np_log (clip (nth 0 col NaN)))
                [[Fin 4; Fin 8]; [Fin 0; Fin 2]; [Fin 0; Fin 3];
                 [Fin 5; Fin 6]; [Fin 1; Fin 2]; [Fin 1; Fin 1]],
            map (fun col => clip (nth 0 col NaN))
                [[Fin 3; Fin 7]; [Fin 1; Fin 2]; [Fin 0; Fin 4];
                 [Fin 2; Fin 10]; [Fin 2; Fin 3]; [Fin 1; Fin 1]]).
Proof.
  assert (Hfresh : ~ In "Unnamed: 0" (x_cols ++ y_cols)%list).
  { apply (sample_index_fresh "Unnamed: 0"). simpl; tauto. }
  exact (ODEDataset_getitem_standard 2 ("Unnamed: 0", [Fin 0; Fin 1])
           [Fin 4; Fin 8] [Fin 0; Fin 2] [Fin 0; Fin 3] [Fin 5; Fin 6]
           [Fin 1; Fin 2] [Fin 1; Fin 1] [Fin 3; Fin 7] [Fin 1; Fin 2]
           [Fin 0; Fin 4] [Fin 2; Fin 10] [Fin 2; Fin 3] [Fin 1; Fin 1]
           Hfresh 0 0%nat eq_refl).
Defined.

(** ** Softmax and the predicted class *)

Lemma finite_list (l : list num) :
  Forall is_fin l -> exists rs : list R, l = map Fin rs.
Proof.
  induction 1 as [| v l [r ->] _ [rs ->]].
  - exists []. reflexivity.
  - exists (r :: rs). reflexivity.
Qed.

Lemma fold_add_fin (rs : list R) (a : R) :
  fold_left num_add (map Fin rs) (Fin a) = Fin (fold_left Rplus rs a).
Proof.
  revert a. induction rs as [| r rs IH]; intros a; simpl; [reflexivity | apply IH].
Qed.

Lemma fold_exp_pos (rs : list R) (a : R) :
  (0 < a)%R -> (0 < fold_left Rplus (map exp rs) a)%R.
Proof.
  revert a. induction rs as [| r rs IH]; intros a Ha; simpl; [exact Ha |].
  apply IH. pose proof (exp_pos r). lra.
Qed.

Lemma sum_exp_pos (rs : list R) :
  rs <> [] -> (0 < fold_left Rplus (map exp rs) 0)%R.
Proof.
  destruct rs as [| r rs]; [contradiction | intros _]. simpl.
  apply fold_exp_pos. rewrite Rplus_0_l. apply exp_pos.
Qed.

(** The softmax of a row of finite scores, on reals. *)
Lemma softmax_row_fin (rs : list R) :
  rs <> [] ->
  softmax_row (map Fin rs)
  = map Fin (map (fun r => (exp r / fold_left Rplus (map exp rs) 0)%R) rs).
Proof.
  intros Hne. unfold softmax_row, tensor_sum, zero.
  assert (E : map np_exp (map Fin rs) = map Fin (map exp rs)).
  { rewrite !map_map. reflexivity. }
  rewrite E, fold_add_fin, !map_map.
  apply map_ext. intros r. simpl.
  destruct (Req_dec_T (fold_left Rplus (map exp rs) 0%R) 0%R) as [H | _]; [| reflexivity].
  pose proof (sum_exp_pos rs Hne). lra.
Qed.

Lemma translate_class (k : nat) :
  (k < 4)%nat ->
  exists label,
    ViralKineticsDNNClassifier.translate (Z.of_nat k) = Some label /\
    In label severity_labels.
Proof.
  intros H. destruct k as [| [| [| [| k]]]]; try lia; eexists;
    (split; [reflexivity | simpl; tauto]).
Qed.

Lemma translate_no_class (k : nat) :
  (4 <= k)%nat -> ViralKineticsDNNClassifier.translate (Z.of_nat k) = None.
Proof.
  intros H. apply translate_dnn_none. simpl. lia.
Qed.

Lemma map_raise_head {A B : Type} (f : A -> option B) (l : list A) (a : A) (b : B)
    (bs : list B) :
  nth_error l 0 = Some a -> f a = Some b -> map_raise f l = Some bs ->
  nth_error bs 0 = Some b.
Proof.
  destruct l as [| a' l]; [discriminate |]. simpl.
  intros E; injection E as ->. intros Hb. rewrite Hb. cbn [bind].
  destruct (map_raise f l); [| discriminate]. cbn [bind].
  intros E; injection E as <-. reflexivity.
Qed.

Lemma softmax_row_length (row : list num) :
  List.length (softmax_row row) = List.length row.
Proof. unfold softmax_row. rewrite !length_map. reflexivity. Qed.

(** X17.  [training_step] never fails at its two print statements on a batch
    whose first record has four scores and four label entries, whatever
    the scores are.  The label printed as "Result" is that of the class
    [argmax] finds in the softmax of the scores, the label printed as
    "Target" that of the class [argmax] finds in the label entries, and
    both are severity labels.  [validation_step] on the same batch takes
    the class of the first record from the scores themselves, without the
    softmax, and scores it against the same target class. *)
Theorem training_step_prints_labels
    (stack : list (list num) -> list (list num)) (x y : list (list num))
    (scores target : list num) :
  nth_error (stack x) 0 = Some scores ->
  List.length scores = 4%nat ->
  nth_error y 0 = Some target ->
  List.length target = 4%nat ->
  exists p t result_label target_label,
    argmax (softmax_row scores) = Some p /\
    argmax target = Some t /\
    ViralKineticsDNNClassifier.translate (Z.of_nat p) = Some result_label /\
    ViralKineticsDNNClassifier.translate (Z.of_nat t) = Some target_label /\
    In result_label severity_labels /\
    In target_label severity_labels /\
    ViralKineticsDNNClassifier.training_step_labels stack x y
    = Some ("Result: " ++ result_label, "Target: " ++ target_label) /\
    forall predictions targets,
      ViralKineticsDNNClassifier.validation_step_scored stack x y
      = Some (predictions, targets) ->
      nth_error predictions 0 = argmax scores /\
      nth_error targets 0 = Some t.
Proof.
  intros Hs Hlen Ht Hlen'.
  destruct (argmax_some (softmax_row scores)) as [p Hp].
  { intros E. apply (f_equal (@List.length num)) in E.
    rewrite softmax_row_length, Hlen in E. discriminate. }
  destruct (argmax_some target) as [t Htg]; [intros E; rewrite E in Hlen'; discriminate |].
  destruct (translate_class p) as [lp [Hlp Hinp]].
  { apply argmax_bound in Hp. rewrite softmax_row_length in Hp. lia. }
  destruct (translate_class t) as [lt [Hlt Hint]];
    [apply argmax_bound in Htg; lia |].
  exists p, t, lp, lt.
  split; [exact Hp |]. split; [exact Htg |]. split; [exact Hlp |].
  split; [exact Hlt |]. split; [exact Hinp |]. split; [exact Hint |]. split.
  - unfold ViralKineticsDNNClassifier.training_step_labels, softmax.
    rewrite (map_nth_error softmax_row 0 _ Hs). cbn [bind].
    rewrite Hp. cbn [bind].
    rewrite Hlp. cbn [bind]. rewrite Ht. cbn [bind]. rewrite Htg. cbn [bind].
    rewrite Hlt. reflexivity.
  - intros predictions targets H.
    destruct (argmax_some scores) as [q Hq];
      [intros E; rewrite E in Hlen; discriminate |].
    unfold ViralKineticsDNNClassifier.validation_step_scored in H.
    apply bind_some in H as [ps [Hps H]]. apply bind_some in H as [ts [Hts E]].
    injection E as <- <-. rewrite Hq.
    split; [apply (map_raise_head argmax _ _ _ _ Hs Hq Hps)
           | apply (map_raise_head argmax _ _ _ _ Ht Htg Hts)].
Qed.

(** X18.  [forward] on a batch of one record with four scores, whatever the
    scores are, returns a severity label: that of the class [argmax]
    finds in the softmax of the scores. *)
Theorem forward_single_record
    (stack : list (list num) -> list (list num)) (x : list (list num))
    (scores : list num) :
  stack x = [scores] ->
  List.length scores = 4%nat ->
  exists p label,
    argmax (softmax_row scores) = Some p /\
    ViralKineticsDNNClassifier.translate (Z.of_nat p) = Some label /\
    In label severity_labels /\
    ViralKineticsDNNClassifier.forward stack x = Some (Some label).
Proof.
  intros Hs Hlen.
  destruct (argmax_some (softmax_row scores)) as [p Hp].
  { intros E. apply (f_equal (@List.length num)) in E.
    rewrite softmax_row_length, Hlen in E. discriminate. }
  destruct (translate_class p) as [lp [Hlp Hin]].
  { apply argmax_bound in Hp. rewrite softmax_row_length in Hp. lia. }
  exists p, lp. repeat split; try assumption.
  unfold ViralKineticsDNNClassifier.forward, softmax. rewrite Hs.
  cbn [map List.concat]. rewrite app_nil_r.
  rewrite Hp. cbn [bind]. rewrite Hlp. reflexivity.
Qed.

(** *** What [argmax] returns *)

Lemma argmax_from_spec (rs pre : list R) (b : R) (at_best : nat) :
  nth_error pre at_best = Some b ->
  (forall j x, nth_error pre j = Some x -> (x <= b)%R) ->
  (forall j x, (j < at_best)%nat -> nth_error pre j = Some x -> (x < b)%R) ->
  exists m : R,
    nth_error (pre ++ rs)
      (argmax_from (Fin b) at_best (List.length pre) (map Fin rs)) = Some m /\
    (forall j x, nth_error (pre ++ rs) j = Some x -> (x <= m)%R) /\
    (forall j x,
        (j < argmax_from (Fin b) at_best (List.length pre) (map Fin rs))%nat ->
        nth_error (pre ++ rs) j = Some x -> (x < m)%R).
Proof.
  revert pre b at_best.
  induction rs as [| r rs IH]; intros pre b ab Hb Hmax Hfirst.
  - simpl. rewrite app_nil_r. exists b. repeat split; assumption.
  - assert (Hlen : List.length (pre ++ [r]) = S (List.length pre)).
    { rewrite length_app. simpl. lia. }
    assert (Hab : (ab < List.length pre)%nat).
    { apply nth_error_Some. congruence. }
    assert (Hr : nth_error (pre ++ [r]) (List.length pre) = Some r).
    { rewrite nth_error_app2 by lia. rewrite Nat.sub_diag. reflexivity. }
    replace (pre ++ r :: rs)%list with ((pre ++ [r]) ++ rs)%list
      by (rewrite <- app_assoc; reflexivity).
    cbn [map argmax_from beats]. rewrite <- Hlen.
    destruct (Rgt_dec r b) as [Hgt | Hle].
    + apply IH.
      * exact Hr.
      * intros j x Hj.
        destruct (Nat.lt_ge_cases j (List.length pre)) as [Hlt | Hge].
        -- rewrite nth_error_app1 in Hj by exact Hlt.
           specialize (Hmax j x Hj). lra.
        -- assert (j = List.length pre).
           { assert (j < List.length (pre ++ [r]))%nat
               by (apply nth_error_Some; congruence). lia. }
           subst j. rewrite Hr in Hj. injection Hj as <-. lra.
      * intros j x Hlt Hj.
        rewrite nth_error_app1 in Hj by lia.
        specialize (Hmax j x Hj). lra.
    + apply IH.
      * rewrite nth_error_app1 by exact Hab. exact Hb.
      * intros j x Hj.
        destruct (Nat.lt_ge_cases j (List.length pre)) as [Hlt | Hge].
        -- rewrite nth_error_app1 in Hj by exact Hlt. apply (Hmax j x Hj).
        -- assert (j = List.length pre).
           { assert (j < List.length (pre ++ [r]))%nat
               by (apply nth_error_Some; congruence). lia. }
           subst j. rewrite Hr in Hj. injection Hj as <-. lra.
      * intros j x Hlt Hj. rewrite nth_error_app1 in Hj by lia.
        apply (Hfirst j x Hlt Hj).
Qed.

(** On finite entries [argmax] returns the first index of the largest
    entry. *)
Lemma argmax_spec (rs : list R) (k : nat) :
  argmax (map Fin rs) = Some k ->
  exists m : R,
    nth_error rs k = Some m /\
    (forall j x, nth_error rs j = Some x -> (x <= m)%R) /\
    (forall j x, (j < k)%nat -> nth_error rs j = Some x -> (x < m)%R).
Proof.
  destruct rs as [| r rs]; [discriminate |].
  cbn [map argmax]. intros E; injection E as <-.
  apply (argmax_from_spec rs [r] r 0).
  - reflexivity.
  - intros [| j] x Hj; simpl in Hj; [injection Hj as <-; lra |].
    destruct j; discriminate Hj.
  - intros j x Hlt. lia.
Qed.

Lemma softmax_row_finite (row : list num) :
  Forall is_fin row -> Forall is_fin (softmax_row row).
Proof.
  intros H. destruct (finite_list row H) as [rs ->].
  destruct rs as [| r rs]; [constructor |].
  rewrite softmax_row_fin by discriminate.
  apply Forall_map, Forall_forall. intros v _. eexists; reflexivity.
Qed.

Lemma nth_error_map_fin (rs : list R) (k : nat) (m : R) :
  nth_error rs k = Some m -> nth_error (map Fin rs) k = Some (Fin m).
Proof. intros H. apply (map_nth_error Fin k rs H). Qed.

Lemma In_map_fin (rs : list R) (q : R) : In (Fin q) (map Fin rs) -> In q rs.
Proof.
  intros H. apply in_map_iff in H as [x [E Hx]]. injection E as <-. exact Hx.
Qed.

(** X19.  [forward] on a batch of several records looks for the largest
    probability in the whole batch: when a record after the first holds a
    probability above every probability of the first record, the index
    found is 4 or more and [forward] returns [None], no label. *)
Theorem forward_batch_returns_none
    (stack : list (list num) -> list (list num)) (x : list (list num))
    (scores : list num) (rest : list (list num)) (q : R) :
  stack x = scores :: rest ->
  List.length scores = 4%nat ->
  Forall is_fin scores ->
  Forall (Forall is_fin) rest ->
  In (Fin q) (List.concat (softmax rest)) ->
  (forall p, In (Fin p) (softmax_row scores) -> (p < q)%R) ->
  ViralKineticsDNNClassifier.forward stack x = Some None.
Proof.
  intros Hs Hlen Hfin Hrest Hq Hfirst.
  unfold ViralKineticsDNNClassifier.forward. rewrite Hs.
  change (softmax (scores :: rest)) with (softmax_row scores :: softmax rest).
  cbn [List.concat].
  assert (Hall : Forall is_fin (softmax_row scores ++ List.concat (softmax rest))).
  { apply Forall_app. split; [apply softmax_row_finite, Hfin |].
    apply Forall_concat. unfold softmax. apply Forall_map.
    eapply Forall_impl; [| exact Hrest]. intros row. apply softmax_row_finite. }
  destruct (finite_list _ Hall) as [ls Els].
  destruct (argmax_some (softmax_row scores ++ List.concat (softmax rest)))
    as [k Hk].
  { intros E. apply app_eq_nil in E as [_ E]. rewrite E in Hq. exact Hq. }
  rewrite Hk. cbn [bind]. f_equal. apply translate_no_class.
  pose proof Hk as Hk'. rewrite Els in Hk'.
  apply argmax_spec in Hk' as (m & Hm & Hmax & _).
  assert (Hqm : (q <= m)%R).
  { assert (Hin : In q ls).
    { apply In_map_fin. rewrite <- Els. apply in_or_app. right. exact Hq. }
    apply In_nth_error in Hin as [j Hj]. apply (Hmax j q Hj). }
  destruct (Nat.lt_ge_cases k 4) as [Hlt | Hge]; [exfalso | exact Hge].
  assert (Hin : In (Fin m) (softmax_row scores)).
  { apply nth_error_map_fin in Hm. rewrite <- Els in Hm.
    rewrite nth_error_app1 in Hm by (rewrite softmax_row_length; lia).
    apply (nth_error_In _ _ Hm). }
  specialize (Hfirst m Hin). lra.
Qed.

(** ** The two rule-based classifiers side by side *)

(** X20.  [lazy_classifier2] differs from [lazy_classifier] in the label
    [forward] returns and in nothing [test_step] scores: with the same
    attribute index and thresholds the two hand the same predictions and
    targets to the accuracy metric, while [forward] of
    [lazy_classifier2] names the class one severity step higher,
    "High" staying "High". *)
Theorem lazy_classifiers_side_by_side (value : Z) (y_max y_min : num)
    (x y : list (list num)) (features : list num) :
  let m1 := lazy_classifier.init value y_max y_min in
  let m2 := lazy_classifier2.init value y_max y_min in
  lazy_classifier2.test_step_scored m2 x y = lazy_classifier.test_step_scored m1 x y /\
  forall v, tensor_get features value = Some v ->
    lazy_classifier.forward m1 features
    = Some (lazy_classifier.translate (lazy_classifier.bracket m1 (np_exp v))) /\
    lazy_classifier2.forward m2 features
    = Some (lazy_classifier.translate
              (Z.min (lazy_classifier.bracket m1 (np_exp v) + 1) 3)).
Proof.
  intros m1 m2. split; [reflexivity |].
  intros v Hv. subst m1 m2.
  unfold lazy_classifier.forward, lazy_classifier2.forward,
    lazy_classifier.init, lazy_classifier2.init.
  cbn [lazy_classifier.value lazy_classifier2.value].
  rewrite Hv. cbn [bind]. split; [reflexivity |]. f_equal.
  rewrite lazy2_bracket_body, lazy_bracket_body.
  cbn [lazy_classifier.y_min lazy_classifier.y_max lazy_classifier2.y_min
       lazy_classifier2.y_max].
  pose proof (bracket_body_range y_min y_max (np_exp v)) as H. simpl in H.
  destruct H as [E | [E | [E | [E | []]]]]; rewrite <- E; reflexivity.
Qed.

(** ** The network models on sample batches *)

Lemma training_step_prints_labels_witness :
  exists result_label target_label,
    In result_label severity_labels /\
    In target_label severity_labels /\
    ViralKineticsDNNClassifier.training_step_labels
      (fun _ => [[Fin 0; Fin 2; Fin 1; Fin 0]])
      [[Fin 1; Fin 1; Fin 1; Fin 1; Fin 1; Fin 1]] [[zero; zero; one; zero]]
    = Some ("Result: " ++ result_label, "Target: " ++ target_label).
Proof.
  destruct (training_step_prints_labels
              (fun _ => [[Fin 0; Fin 2; Fin 1; Fin 0]])
              [[Fin 1; Fin 1; Fin 1; Fin 1; Fin 1; Fin 1]] [[zero; zero; one; zero]]
              [Fin 0; Fin 2; Fin 1; Fin 0] [zero; zero; one; zero])
    as (p & t & lp & lt & _ & _ & _ & _ & Hp & Ht & H & _).
  - reflexivity.
  - reflexivity.
  - reflexivity.
  - reflexivity.
  - exists lp, lt. split; [exact Hp |]. split; [exact Ht | exact H].
Defined.

Lemma forward_single_record_witness :
  exists label,
    In label severity_labels /\
    ViralKineticsDNNClassifier.forward
      (fun _ => [[Fin 0; Fin 2; Fin 1; Fin 0]])
      [[Fin 1; Fin 1; Fin 1; Fin 1; Fin 1; Fin 1]]
    = Some (Some label).
Proof.
  destruct (forward_single_record
              (fun _ => [[Fin 0; Fin 2; Fin 1; Fin 0]])
              [[Fin 1; Fin 1; Fin 1; Fin 1; Fin 1; Fin 1]]
              [Fin 0; Fin 2; Fin 1; Fin 0])
    as (p & label & _ & _ & Hin & H).
  - reflexivity.
  - reflexivity.
  - exists label. split; assumption.
Defined.

Lemma forward_batch_returns_none_witness :
  ViralKineticsDNNClassifier.forward
    (fun _ => [[Fin 0; Fin 0; Fin 0; Fin 0]; [Fin 0; Fin 0; Fin 0; Fin 5]])
    [[Fin 1; Fin 1; Fin 1; Fin 1; Fin 1; Fin 1];
     [Fin 2; Fin 2; Fin 2; Fin 2; Fin 2; Fin 2]]
  = Some None.
Proof.
  assert (He : (1 < exp 5)%R).
  { rewrite <- exp_0. apply exp_increasing. lra. }
  assert (Hrow0 : softmax_row [Fin 0; Fin 0; Fin 0; Fin 0]
                  = map Fin (map (fun r => (exp r / (0 + 1 + 1 + 1 + 1))%R)
                                 [0; 0; 0; 0]%R)).
  { change [Fin 0; Fin 0; Fin 0; Fin 0] with (map Fin [0; 0; 0; 0]%R).
    rewrite (softmax_row_fin [0; 0; 0; 0]%R) by discriminate.
    cbn [map fold_left]. rewrite !exp_0. reflexivity. }
  assert (Hrow1 : softmax_row [Fin 0; Fin 0; Fin 0; Fin 5]
                  = map Fin (map (fun r => (exp r / (0 + 1 + 1 + 1 + exp 5))%R)
                                 [0; 0; 0; 5]%R)).
  { change [Fin 0; Fin 0; Fin 0; Fin 5] with (map Fin [0; 0; 0; 5]%R).
    rewrite (softmax_row_fin [0; 0; 0; 5]%R) by discriminate.
    cbn [map fold_left]. rewrite !exp_0. reflexivity. }
  apply (forward_batch_returns_none
           (fun _ => [[Fin 0; Fin 0; Fin 0; Fin 0]; [Fin 0; Fin 0; Fin 0; Fin 5]])
           [[Fin 1; Fin 1; Fin 1; Fin 1; Fin 1; Fin 1];
            [Fin 2; Fin 2; Fin 2; Fin 2; Fin 2; Fin 2]]
           [Fin 0; Fin 0; Fin 0; Fin 0] [[Fin 0; Fin 0; Fin 0; Fin 5]]
           (exp 5 / (0 + 1 + 1 + 1 + exp 5))%R).
  - reflexivity.
  - reflexivity.
  - repeat (apply Forall_cons || apply Forall_nil || (eexists; reflexivity)).
  - repeat (apply Forall_cons || apply Forall_nil || (eexists; reflexivity)).
  - unfold softmax. cbn [map List.concat]. rewrite Hrow1. cbn [map app].
    right. right. right. left. reflexivity.
  - intros p Hp. rewrite Hrow0 in Hp. cbn [map] in Hp. rewrite exp_0 in Hp.
    assert (E : p = (1 / (0 + 1 + 1 + 1 + 1))%R).
    { destruct Hp as [E | [E | [E | [E | []]]]]; injection E as <-; reflexivity. }
    subst p.
    apply Rmult_lt_reg_r with (r := ((0 + 1 + 1 + 1 + 1) * (0 + 1 + 1 + 1 + exp 5))%R);
      [lra |].
    field_simplify; lra.
Defined.
